(** * Voice-agent pipeline: metrics recorder, session entrypoint, configuration

    A shallow embedding of [main.py] (classes [MetricsTracker] and
    [VoiceAgent]) and of [config.py] (class [Config]), followed by the
    properties of the specification that concern them.

    Conventions of the embedding.
    - A finite Python float (a delay, a latency, a clock reading) is the
      rational [Q] it denotes. Comparisons of floats are exact. The sums and
      the quotients of [save_to_excel] are rounded to binary64 as the
      interpreter rounds them ([round_float]). The differences that the code
      takes are between two readings of the same clock within one session,
      which lie within a factor of two of each other, where float
      subtraction is exact. A float parsed from the environment can also be
      an infinity or a NaN: [pyfloat].
    - A Python call either returns or raises: [outcome A].
    - Stateful code lives in the monad [Py], a state-and-exception monad over
      the interpreter state [St] (the tracker object, the clock position, the
      files on disk and the log of calls made on collaborators).
    - What the outside world does (clock readings, provider replies, faults
      of the spreadsheet library) is data: the [Host] record and the
      [JobContext] script. *)

From Stdlib Require Import QArith Qround Qabs Lqa.
From stdpp Require Import base option list strings pretty gmap.

Local Open Scope string_scope.

(** * Python prelude *)

Module Python.

(** Exceptions, split along the only distinction the code makes:
    [except Exception] catches instances of [Exception] and lets the other
    [BaseException]s ([CancelledError], [KeyboardInterrupt], [SystemExit])
    through. *)
Inductive exn : Type :=
| Exception (name : string)
| BaseException (name : string).

Definition is_Exception (e : exn) : bool :=
  match e with
  | Exception _ => true
  | BaseException _ => false
  end.

Inductive outcome (A : Type) : Type :=
| Returns (a : A)
| Raises (e : exn).
Arguments Returns {A} a.
Arguments Raises {A} e.

Definition returns {A} (o : outcome A) : bool :=
  match o with
  | Returns _ => true
  | Raises _ => false
  end.

Definition outcome_bind {A B} (o : outcome A) (k : A -> outcome B) : outcome B :=
  match o with
  | Returns a => k a
  | Raises e => Raises e
  end.

(** Truth value of [os.getenv(..)] and of a class attribute read from it:
    [None] and the empty string are false. *)
Definition truthy_str (v : option string) : bool :=
  match v with
  | Some s => negb (String.eqb s "")
  | None => false
  end.

(** Truth value of a float-or-None attribute: [None] and [0.0] are false. *)
Definition truthy_float (v : option Q) : bool :=
  match v with
  | Some q => negb (Qeq_bool q 0)
  | None => false
  end.

(** [x < y] on floats. *)
Definition Qltb (x y : Q) : bool := negb (Qle_bool y x).

(** [int(x)]: truncation towards zero. *)
Definition py_int (x : Q) : Z := Z.quot (Qnum x) (Zpos (Qden x)).

(** ** Float arithmetic

    The result of a float operation is the exact result rounded to the
    nearest binary64 value, ties to the value whose last bit is even. A
    binary64 value is a multiple of the unit in the last place of its
    binade: 53 significant bits, and no finer than [2^-1074]. (Results
    beyond the largest finite float, about [1.8e308], are infinite in
    Python; the quantities here are seconds.) *)

(** [floor (log2 |q|)] for [q] other than [0]. *)
Definition Qlog2 (q : Q) : Z :=
  let e := (Z.log2 (Z.abs (Qnum q)) - Z.log2 (Zpos (Qden q)))%Z in
  if Qle_bool (2 ^ e) (Qabs q) then e else (e - 1)%Z.

(** The unit in the last place of the floats of the binade of [q]. *)
Definition ulp (q : Q) : Q := (2 ^ Z.max (Qlog2 q - 52) (-1074))%Q.

(** The nearest integer, the even one of the two when [q] is half-way. *)
Definition round_half_even (q : Q) : Z :=
  let f := Qfloor q in
  match (q - inject_Z f ?= 1 # 2)%Q with
  | Lt => f
  | Gt => (f + 1)%Z
  | Eq => if Z.even f then f else (f + 1)%Z
  end.

Definition round_float (q : Q) : Q :=
  let r := Qred q in
  if Qeq_bool r 0 then 0%Q
  else Qred (inject_Z (round_half_even (r / ulp r)) * ulp r).

(** [q] is a float: rounding leaves it as it is. *)
Definition is_float (q : Q) : Prop := (round_float q == q)%Q.

(** [x + y] on floats. *)
Definition py_add (x y : Q) : Q := round_float (x + y).

(** [sum(l)]: starts from [0] and adds from the left, rounding each sum, as
    CPython does up to version 3.11 (later versions also carry a
    compensation term for the rounding errors along the sum). *)
Definition py_sum (l : list Q) : Q := fold_left py_add l 0%Q.

(** [x / y]; a zero divisor raises [ZeroDivisionError]. *)
Definition py_truediv (x y : Q) : outcome Q :=
  if Qeq_bool y 0 then Raises (Exception "ZeroDivisionError")
  else Returns (round_float (x / y)).

(** What [float(s)] returns for a string it accepts: a finite value, or one
    of the values that ["inf"], ["-inf"] and ["nan"] parse to. *)
Inductive pyfloat : Type :=
| Finite (q : Q)
| Infinity (negative : bool)
| NaN.

(** [x < y] and [x > y] on such floats: false as soon as an operand is a
    NaN. *)
Definition float_lt (x y : pyfloat) : bool :=
  match x, y with
  | NaN, _ | _, NaN => false
  | Finite a, Finite b => Qltb a b
  | Finite _, Infinity negative => negb negative
  | Infinity negative, Finite _ => negative
  | Infinity n1, Infinity n2 => n1 && negb n2
  end.

Definition float_gt (x y : pyfloat) : bool := float_lt y x.

(** [max(l)] and [min(l)]: the first item, replaced by each later item that
    is strictly greater (smaller); an empty argument raises [ValueError]. *)
Definition py_max (l : list Q) : outcome Q :=
  match l with
  | [] => Raises (Exception "ValueError")
  | x :: r => Returns (fold_left (fun m y => if Qltb m y then y else m) r x)
  end.

Definition py_min (l : list Q) : outcome Q :=
  match l with
  | [] => Raises (Exception "ValueError")
  | x :: r => Returns (fold_left (fun m y => if Qltb y m then y else m) r x)
  end.

(** [len(l)] as a float operand. *)
Definition py_len (l : list Q) : Q := inject_Z (Z.of_nat (length l)).

(** Truth value of a list: non-empty. *)
Definition truthy_list {A} (l : list A) : bool :=
  match l with
  | [] => false
  | _ :: _ => true
  end.

(** [str.upper()] on ASCII. *)
Definition upper_ascii (c : Ascii.ascii) : Ascii.ascii :=
  let n := Ascii.nat_of_ascii c in
  if (97 <=? n)%nat && (n <=? 122)%nat then Ascii.ascii_of_nat (n - 32) else c.

Fixpoint upper (s : string) : string :=
  match s with
  | EmptyString => EmptyString
  | String c r => String (upper_ascii c) (upper r)
  end.

(** [needle in haystack] on strings. *)
Fixpoint contains (needle hay : string) : bool :=
  String.prefix needle hay ||
  match hay with
  | EmptyString => false
  | String _ r => contains needle r
  end.

End Python.
Export Python.

(** * config.py *)

Module Config.

(** The class attributes of [Config], as read from the process environment
    when the class body runs. [os.getenv(name)] is [None] or a string. *)
Record Config : Type := {
  LIVEKIT_URL : string;
  LIVEKIT_API_KEY : option string;
  LIVEKIT_API_SECRET : option string;
  DEEPGRAM_API_KEY : option string;
  OPENAI_API_KEY : option string;
  GROQ_API_KEY : option string;
  ELEVENLABS_API_KEY : option string;
  CARTESIA_API_KEY : option string;
  TARGET_LATENCY : pyfloat
}.

Section Load.
(** [os.getenv] and the builtin [float] on the strings it is given. *)
Variable getenv : string -> option string.
Variable float : string -> pyfloat.

Definition getenv_default (name default : string) : string :=
  match getenv name with
  | Some v => v
  | None => default
  end.

Definition load : Config := {|
  LIVEKIT_URL := getenv_default "LIVEKIT_URL" "ws://localhost:7880";
  LIVEKIT_API_KEY := getenv "LIVEKIT_API_KEY";
  LIVEKIT_API_SECRET := getenv "LIVEKIT_API_SECRET";
  DEEPGRAM_API_KEY := getenv "DEEPGRAM_API_KEY";
  OPENAI_API_KEY := getenv "OPENAI_API_KEY";
  GROQ_API_KEY := getenv "GROQ_API_KEY";
  ELEVENLABS_API_KEY := getenv "ELEVENLABS_API_KEY";
  CARTESIA_API_KEY := getenv "CARTESIA_API_KEY";
  TARGET_LATENCY := float (getenv_default "TARGET_LATENCY" "2.0")
|}.
End Load.

(** A dict whose iteration order matters: an association list in insertion
    order. *)
Definition priorities_t : Type := list (string * list string).

(** [if key: l.append(name)] *)
Definition append_if (key : option string) (name : string) (l : list string)
  : list string :=
  if truthy_str key then l ++ [name] else l.

Definition get_service_priority (cls : Config) : priorities_t :=
  let stt := [] in
  let llm := [] in
  let tts := [] in
  let stt := append_if (DEEPGRAM_API_KEY cls) "deepgram" stt in
  let stt := append_if (OPENAI_API_KEY cls) "openai" stt in
  let llm := append_if (GROQ_API_KEY cls) "groq" llm in
  let llm := append_if (OPENAI_API_KEY cls) "openai" llm in
  let tts := append_if (ELEVENLABS_API_KEY cls) "elevenlabs" tts in
  let tts := append_if (CARTESIA_API_KEY cls) "cartesia" tts in
  let tts := append_if (OPENAI_API_KEY cls) "openai" tts in
  [("stt", stt); ("llm", llm); ("tts", tts)].

Record Status : Type := {
  valid : bool;
  errors : list string;
  warnings : list string;
  available_services : priorities_t
}.

Definition set_invalid (msg : string) (st : Status) : Status :=
  {| valid := false;
     errors := errors st ++ [msg];
     warnings := warnings st;
     available_services := available_services st |}.

Definition add_warning (msg : string) (st : Status) : Status :=
  {| valid := valid st;
     errors := errors st;
     warnings := warnings st ++ [msg];
     available_services := available_services st |}.

(** [status["available_services"][service_type] = providers]: the keys met
    by [validate_config] are fresh, so the assignment appends. *)
Definition set_available (service_type : string) (providers : list string)
  (st : Status) : Status :=
  {| valid := valid st;
     errors := errors st;
     warnings := warnings st;
     available_services :=
       (List.filter (fun kv => negb (String.eqb (fst kv) service_type))
                    (available_services st)
        ++ [(service_type, providers)])%list |}.

Definition no_service_message (service_type : string) : string :=
  "No " +:+ upper service_type +:+ " service configured".

(** One turn of [for service_type, providers in priorities.items()]. *)
Definition check_service (st : Status) (item : string * list string) : Status :=
  let '(service_type, providers) := item in
  let st := set_available service_type providers st in
  if negb (truthy_list providers)
  then set_invalid (no_service_message service_type) st
  else st.

Definition validate_config (cls : Config) : Status :=
  let status :=
    {| valid := true; errors := []; warnings := []; available_services := [] |} in
  let status :=
    if negb (truthy_str (LIVEKIT_API_KEY cls))
       || negb (truthy_str (LIVEKIT_API_SECRET cls))
    then set_invalid "LiveKit API key and secret are required" status
    else status in
  let priorities := get_service_priority cls in
  let status := fold_left check_service priorities status in
  if float_gt (TARGET_LATENCY cls) (Finite 3)
  then add_warning "Target latency > 3s may impact user experience" status
  else status.

(** [status["available_services"][stage]] *)
Definition services_of (st : Status) (stage : string) : option (list string) :=
  snd <$> List.find (fun kv => String.eqb (fst kv) stage) (available_services st).

(** The environment variables whose presence makes a provider of [stage]
    available, in priority order. *)
Definition stage_keys (cls : Config) (stage : string) : list (option string) :=
  if String.eqb stage "stt" then [DEEPGRAM_API_KEY cls; OPENAI_API_KEY cls]
  else if String.eqb stage "llm" then [GROQ_API_KEY cls; OPENAI_API_KEY cls]
  else if String.eqb stage "tts"
       then [ELEVENLABS_API_KEY cls; CARTESIA_API_KEY cls; OPENAI_API_KEY cls]
  else [].

Definition stages : list string := ["stt"; "llm"; "tts"].

Definition has_provider (cls : Config) (stage : string) : bool :=
  existsb truthy_str (stage_keys cls stage).

Definition transport_credentials (cls : Config) : bool :=
  truthy_str (LIVEKIT_API_KEY cls) && truthy_str (LIVEKIT_API_SECRET cls).

End Config.

(** * main.py *)

Module Main.

(** ** Data *)

(** [MetricsTracker.metrics], the dict built by [__init__]. *)
Record Metrics : Type := {
  session_id : option string;
  start_time : option string;
  end_time : option string;
  total_duration : Q;
  interruptions_count : nat;
  stt_delays : list Q;
  ttft_delays : list Q;
  ttfd_delays : list Q;
  total_latencies : list Q;
  user_messages : nat;
  agent_responses : nat;
  errors : nat
}.

Record MetricsTracker : Type := {
  session_start : option Q;
  metrics : Metrics
}.

(** [MetricsTracker()] *)
Definition init : MetricsTracker := {|
  session_start := None;
  metrics := {|
    session_id := None; start_time := None; end_time := None;
    total_duration := 0; interruptions_count := 0;
    stt_delays := []; ttft_delays := []; ttfd_delays := [];
    total_latencies := [];
    user_messages := 0; agent_responses := 0; errors := 0 |}
|}.

(** The one-row data frame [summary_data] of [save_to_excel]; a field per
    column, in column order. *)
Record Row : Type := {
  Session_ID : option string;
  Start_Time : option string;
  End_Time : option string;
  Total_Duration_s : Q;
  User_Messages : nat;
  Agent_Responses : nat;
  Interruptions : nat;
  Average_STT_Delay_s : Q;
  Average_TTFT_s : Q;
  Average_TTFD_s : Q;
  Average_Total_Latency_s : Q;
  Max_Latency_s : Q;
  Min_Latency_s : Q;
  Errors : nat;
  Latency_Target_Met_lt_2s : bool
  }.

(** Calls made on collaborators, in program order: the methods of the
    tracker, the three providers and the job context. *)
Inductive Event : Type :=
| call_start_session (id : string)
| call_record_stt_delay (delay : Q)
| call_record_ttft (delay : Q)
| call_record_ttfd (delay : Q)
| call_record_total_latency (latency : Q)
| call_record_interruption
| call_record_user_message
| call_record_agent_response
| call_record_error
| call_end_session
| call_save_to_excel (filename : string)
| call_transcribe (audio_chunk : string)
| call_chat (user_text : string)
| call_synthesize (response_text : string)
| call_send_audio (audio_response : string).

(** What the process sees of the outside world, apart from the audio
    stream: the two clocks (indexed by the number of readings taken so
    far), the environment variables, and what the spreadsheet library does
    ([None]: the call succeeds). *)
Record Host : Type := {
  time_time : nat -> Q;
  datetime_now_isoformat : nat -> string;
  getenv : string -> option string;
  fault_DataFrame : option exn;
  fault_read_excel : option exn;
  fault_to_excel : option exn
}.

(** Interpreter state: the [metrics_tracker] of the [VoiceAgent] instance
    whose [entrypoint] runs (its other attribute, [conversation_active], is
    never read), the number of clock readings taken, the spreadsheet files on
    disk, and the calls made so far. *)
Record St : Type := {
  tracker : MetricsTracker;
  tick : nat;
  files : gmap string (list Row);
  calls : list Event
}.

(** ** The monad of Python statements *)

Definition Py (A : Type) : Type := St -> outcome A * St.

Definition ret {A} (a : A) : Py A := fun s => (Returns a, s).

Definition bind {A B} (m : Py A) (k : A -> Py B) : Py B :=
  fun s =>
    match m s with
    | (Returns a, s') => k a s'
    | (Raises e, s') => (Raises e, s')
    end.

Definition raise {A} (e : exn) : Py A := fun s => (Raises e, s).

Definition lift {A} (o : outcome A) : Py A := fun s => (o, s).

Declare Scope py_scope.
Delimit Scope py_scope with py.
Notation "x <- m ;; k" := (bind m (fun x => k))
  (at level 100, m at next level, right associativity) : py_scope.
Notation "m ;; k" := (bind m (fun _ => k))
  (at level 100, right associativity) : py_scope.
Local Open Scope py_scope.

(** [try: body / except Exception as e: handler e] *)
Definition try_except {A} (body : Py A) (handler : exn -> Py A) : Py A :=
  fun s =>
    match body s with
    | (Returns a, s') => (Returns a, s')
    | (Raises e, s') =>
        if is_Exception e then handler e s' else (Raises e, s')
    end.

(** [try: body / finally: final]: [final] runs however [body] ends; what
    [body] returned or raised stands unless [final] itself raises. *)
Definition try_finally {A} (body : Py A) (final : Py unit) : Py A :=
  fun s =>
    let '(r, s') := body s in
    match final s' with
    | (Returns _, s'') => (r, s'')
    | (Raises e, s'') => (Raises e, s'')
    end.

(** State access. *)
Definition log (ev : Event) : Py unit :=
  fun s => (Returns tt,
            {| tracker := tracker s; tick := tick s; files := files s;
               calls := calls s ++ [ev] |}).

Definition get_self : Py MetricsTracker := fun s => (Returns (tracker s), s).

(** [self.attr = ..] and [self.metrics[..] = ..]: an update of the tracker
    object in place. *)
Definition update_self (f : MetricsTracker -> MetricsTracker) : Py unit :=
  fun s => (Returns tt,
            {| tracker := f (tracker s); tick := tick s; files := files s;
               calls := calls s |}).

Definition update_metrics (f : Metrics -> Metrics) : Py unit :=
  update_self (fun self => {| session_start := session_start self;
                              metrics := f (metrics self) |}).

Definition next_tick : Py nat :=
  fun s => (Returns (tick s),
            {| tracker := tracker s; tick := S (tick s); files := files s;
               calls := calls s |}).

Definition get_files : Py (gmap string (list Row)) :=
  fun s => (Returns (files s), s).

Definition set_files (fs : gmap string (list Row)) : Py unit :=
  fun s => (Returns tt,
            {| tracker := tracker s; tick := tick s; files := fs;
               calls := calls s |}).

(** ** Field updates of the metrics dict *)

Definition with_start (id : string) (now : string) (m : Metrics) : Metrics :=
  {| session_id := Some id; start_time := Some now; end_time := end_time m;
     total_duration := total_duration m;
     interruptions_count := interruptions_count m;
     stt_delays := stt_delays m; ttft_delays := ttft_delays m;
     ttfd_delays := ttfd_delays m; total_latencies := total_latencies m;
     user_messages := user_messages m; agent_responses := agent_responses m;
     errors := errors m |}.

Definition with_end (now : string) (duration : Q) (m : Metrics) : Metrics :=
  {| session_id := session_id m; start_time := start_time m;
     end_time := Some now; total_duration := duration;
     interruptions_count := interruptions_count m;
     stt_delays := stt_delays m; ttft_delays := ttft_delays m;
     ttfd_delays := ttfd_delays m; total_latencies := total_latencies m;
     user_messages := user_messages m; agent_responses := agent_responses m;
     errors := errors m |}.

Definition append_stt_delay (delay : Q) (m : Metrics) : Metrics :=
  {| session_id := session_id m; start_time := start_time m;
     end_time := end_time m; total_duration := total_duration m;
     interruptions_count := interruptions_count m;
     stt_delays := stt_delays m ++ [delay]; ttft_delays := ttft_delays m;
     ttfd_delays := ttfd_delays m; total_latencies := total_latencies m;
     user_messages := user_messages m; agent_responses := agent_responses m;
     errors := errors m |}.

Definition append_ttft (delay : Q) (m : Metrics) : Metrics :=
  {| session_id := session_id m; start_time := start_time m;
     end_time := end_time m; total_duration := total_duration m;
     interruptions_count := interruptions_count m;
     stt_delays := stt_delays m; ttft_delays := ttft_delays m ++ [delay];
     ttfd_delays := ttfd_delays m; total_latencies := total_latencies m;
     user_messages := user_messages m; agent_responses := agent_responses m;
     errors := errors m |}.

Definition append_ttfd (delay : Q) (m : Metrics) : Metrics :=
  {| session_id := session_id m; start_time := start_time m;
     end_time := end_time m; total_duration := total_duration m;
     interruptions_count := interruptions_count m;
     stt_delays := stt_delays m; ttft_delays := ttft_delays m;
     ttfd_delays := ttfd_delays m ++ [delay];
     total_latencies := total_latencies m;
     user_messages := user_messages m; agent_responses := agent_responses m;
     errors := errors m |}.

Definition append_total_latency (latency : Q) (m : Metrics) : Metrics :=
  {| session_id := session_id m; start_time := start_time m;
     end_time := end_time m; total_duration := total_duration m;
     interruptions_count := interruptions_count m;
     stt_delays := stt_delays m; ttft_delays := ttft_delays m;
     ttfd_delays := ttfd_delays m;
     total_latencies := total_latencies m ++ [latency];
     user_messages := user_messages m; agent_responses := agent_responses m;
     errors := errors m |}.

Definition incr_interruptions (m : Metrics) : Metrics :=
  {| session_id := session_id m; start_time := start_time m;
     end_time := end_time m; total_duration := total_duration m;
     interruptions_count := interruptions_count m + 1;
     stt_delays := stt_delays m; ttft_delays := ttft_delays m;
     ttfd_delays := ttfd_delays m; total_latencies := total_latencies m;
     user_messages := user_messages m; agent_responses := agent_responses m;
     errors := errors m |}.

Definition incr_user_messages (m : Metrics) : Metrics :=
  {| session_id := session_id m; start_time := start_time m;
     end_time := end_time m; total_duration := total_duration m;
     interruptions_count := interruptions_count m;
     stt_delays := stt_delays m; ttft_delays := ttft_delays m;
     ttfd_delays := ttfd_delays m; total_latencies := total_latencies m;
     user_messages := user_messages m + 1;
     agent_responses := agent_responses m; errors := errors m |}.

Definition incr_agent_responses (m : Metrics) : Metrics :=
  {| session_id := session_id m; start_time := start_time m;
     end_time := end_time m; total_duration := total_duration m;
     interruptions_count := interruptions_count m;
     stt_delays := stt_delays m; ttft_delays := ttft_delays m;
     ttfd_delays := ttfd_delays m; total_latencies := total_latencies m;
     user_messages := user_messages m;
     agent_responses := agent_responses m + 1; errors := errors m |}.

Definition incr_errors (m : Metrics) : Metrics :=
  {| session_id := session_id m; start_time := start_time m;
     end_time := end_time m; total_duration := total_duration m;
     interruptions_count := interruptions_count m;
     stt_delays := stt_delays m; ttft_delays := ttft_delays m;
     ttfd_delays := ttfd_delays m; total_latencies := total_latencies m;
     user_messages := user_messages m; agent_responses := agent_responses m;
     errors := errors m + 1 |}.

(** ** Scripted collaborators *)

(** One audio segment delivered by the transport, with the time it reached
    the transport and what each awaited call made for it does. *)
Record Cycle : Type := {
  audio_chunk : string;
  arrival : Q;
  transcribe : outcome string;
  chat : outcome string;
  synthesize : outcome string;
  send_audio : outcome unit
}.

(** How [ctx.audio_stream()] stops yielding. *)
Inductive StreamEnd : Type :=
| end_of_stream
| stream_raises (e : exn).

Record JobContext : Type := {
  providers_fault : option exn;
  audio_stream : list Cycle;
  stream_end : StreamEnd
}.

(** The provider objects bound to [stt], [llm_service] and [tts]. *)
Record Providers : Type := {
  stt : string;
  llm_service : string;
  tts : string
}.

Section WithHost.
Variable host : Host.

(** [time.time()] and [datetime.now().isoformat()] *)
Definition now : Py Q :=
  n <- next_tick ;; ret (time_time host n).

Definition now_iso : Py string :=
  n <- next_tick ;; ret (datetime_now_isoformat host n).

(** ** class MetricsTracker *)

Definition start_session (id : string) : Py unit :=
  log (call_start_session id) ;;
  t <- now ;;
  update_self (fun self => {| session_start := Some t;
                              metrics := metrics self |}) ;;
  iso <- now_iso ;;
  update_metrics (with_start id iso).

Definition record_stt_delay (delay : Q) : Py unit :=
  log (call_record_stt_delay delay) ;;
  update_metrics (append_stt_delay delay).

Definition record_ttft (delay : Q) : Py unit :=
  log (call_record_ttft delay) ;;
  update_metrics (append_ttft delay).

Definition record_ttfd (delay : Q) : Py unit :=
  log (call_record_ttfd delay) ;;
  update_metrics (append_ttfd delay).

Definition record_total_latency (latency : Q) : Py unit :=
  log (call_record_total_latency latency) ;;
  update_metrics (append_total_latency latency).

Definition record_interruption : Py unit :=
  log call_record_interruption ;;
  update_metrics incr_interruptions.

Definition record_user_message : Py unit :=
  log call_record_user_message ;;
  update_metrics incr_user_messages.

Definition record_agent_response : Py unit :=
  log call_record_agent_response ;;
  update_metrics incr_agent_responses.

Definition record_error : Py unit :=
  log call_record_error ;;
  update_metrics incr_errors.

Definition end_session : Py unit :=
  log call_end_session ;;
  self <- get_self ;;
  if truthy_float (session_start self) then
    iso <- now_iso ;;
    t <- now ;;
    let start := default 0%Q (session_start self) in
    update_metrics (with_end iso (t - start)%Q)
  else ret tt.

(** [sum(l) / len(l) if l else 0] *)
Definition average (l : list Q) : outcome Q :=
  if truthy_list l then py_truediv (py_sum l) (py_len l) else Returns 0%Q.

(** The part of [save_to_excel] that computes [summary_data]. *)
Definition summary_data (m : Metrics) : outcome Row :=
  outcome_bind (average (stt_delays m)) (fun avg_stt =>
  outcome_bind (average (ttft_delays m)) (fun avg_ttft =>
  outcome_bind (average (ttfd_delays m)) (fun avg_ttfd =>
  outcome_bind (average (total_latencies m)) (fun avg_latency =>
  outcome_bind (if truthy_list (total_latencies m)
                then py_max (total_latencies m) else Returns 0%Q)
               (fun max_latency =>
  outcome_bind (if truthy_list (total_latencies m)
                then py_min (total_latencies m) else Returns 0%Q)
               (fun min_latency =>
  Returns {|
    Session_ID := session_id m;
    Start_Time := start_time m;
    End_Time := end_time m;
    Total_Duration_s := total_duration m;
    User_Messages := user_messages m;
    Agent_Responses := agent_responses m;
    Interruptions := interruptions_count m;
    Average_STT_Delay_s := avg_stt;
    Average_TTFT_s := avg_ttft;
    Average_TTFD_s := avg_ttfd;
    Average_Total_Latency_s := avg_latency;
    Max_Latency_s := max_latency;
    Min_Latency_s := min_latency;
    Errors := errors m;
    Latency_Target_Met_lt_2s := Qltb avg_latency 2
      |})))))).

(** The spreadsheet library. A call that fails raises what the host says
    and leaves the files as they are. *)
Definition or_fault {A} (fault : option exn) (m : Py A) : Py A :=
  match fault with
  | Some e => raise e
  | None => m
  end.

Definition pd_DataFrame (rows : list Row) : Py (list Row) :=
  or_fault (fault_DataFrame host) (ret rows).

Definition os_path_exists (filename : string) : Py bool :=
  fs <- get_files ;; ret (bool_decide (is_Some (fs !! filename))).

Definition pd_read_excel (filename : string) : Py (list Row) :=
  or_fault (fault_read_excel host)
    (fs <- get_files ;;
     match fs !! filename with
     | Some rows => ret rows
     | None => raise (Exception "FileNotFoundError")
     end).

Definition to_excel (df : list Row) (filename : string) : Py unit :=
  or_fault (fault_to_excel host)
    (fs <- get_files ;; set_files (<[filename := df]> fs)).

Definition save_to_excel (filename : string) : Py unit :=
  log (call_save_to_excel filename) ;;
  try_except
    (self <- get_self ;;
     summary <- lift (summary_data (metrics self)) ;;
     df <- pd_DataFrame [summary] ;;
     present <- os_path_exists filename ;;
     df <- (if present : bool
            then existing_df <- pd_read_excel filename ;;
                 ret (existing_df ++ df)%list
            else ret df) ;;
     to_excel df filename)
    (fun _ => ret tt).

(** ** class VoiceAgent *)

Definition create_providers (ctx : JobContext) : Py Providers :=
  or_fault (providers_fault ctx)
    (ret {|
       stt := if truthy_str (getenv host "DEEPGRAM_API_KEY")
              then "deepgram" else "openai";
       llm_service := if truthy_str (getenv host "GROQ_API_KEY")
                      then "groq" else "openai";
       tts := if truthy_str (getenv host "ELEVENLABS_API_KEY")
              then "elevenlabs"
              else if truthy_str (getenv host "CARTESIA_API_KEY")
                   then "cartesia" else "openai" |}).

(** The body of [async for audio_chunk in ctx.audio_stream()]. *)
Definition process_chunk (c : Cycle) : Py unit :=
  start_stt <- now ;;
  log (call_transcribe (audio_chunk c)) ;;
  user_text <- lift (transcribe c) ;;
  t <- now ;;
  let stt_delay := (t - start_stt)%Q in
  record_stt_delay stt_delay ;;
  record_user_message ;;
  start_llm <- now ;;
  log (call_chat user_text) ;;
  response_text <- lift (chat c) ;;
  t <- now ;;
  let ttft := (t - start_llm)%Q in
  record_ttft ttft ;;
  start_tts <- now ;;
  log (call_synthesize response_text) ;;
  audio_response <- lift (synthesize c) ;;
  t <- now ;;
  let ttfd := (t - start_llm)%Q in
  record_ttfd ttfd ;;
  record_agent_response ;;
  log (call_send_audio audio_response) ;;
  lift (send_audio c).

Fixpoint async_for (chunks : list Cycle) (stop : StreamEnd) : Py unit :=
  match chunks with
  | [] =>
      match stop with
      | end_of_stream => ret tt
      | stream_raises e => raise e
      end
  | c :: rest => process_chunk c ;; async_for rest stop
  end.

Definition default_filename : string := "voice_agent_metrics.xlsx".

Definition entrypoint (ctx : JobContext) : Py unit :=
  t <- now ;;
  let session_id := "session_" +:+ pretty (py_int t) in
  start_session session_id ;;
  try_finally
    (try_except
       (_ <- create_providers ctx ;;
        async_for (audio_stream ctx) (stream_end ctx))
       (fun _ => record_error))
    (end_session ;; save_to_excel default_filename).

End WithHost.

End Main.

(** * Specification-level vocabulary *)

Module Spec.
Import Main.

(** The sum of the raw samples, by recursion on the sequence. *)
Fixpoint sum_of (l : list Q) : Q :=
  match l with
  | [] => 0
  | x :: r => x + sum_of r
  end.

(** [a] is what the specification calls the average of [l]: the sum over
    the count, and [0] for no sample. *)
Definition mean_of (l : list Q) (a : Q) : Prop :=
  match l with
  | [] => a = 0%Q
  | _ :: _ => (a == sum_of l / inject_Z (Z.of_nat (length l)))%Q
  end.

(** [a] is the largest (smallest) raw sample, and [0] for no sample. *)
Definition max_of (l : list Q) (a : Q) : Prop :=
  match l with
  | [] => a = 0%Q
  | _ :: _ => In a l /\ forall x, In x l -> (x <= a)%Q
  end.

Definition min_of (l : list Q) (a : Q) : Prop :=
  match l with
  | [] => a = 0%Q
  | _ :: _ => In a l /\ forall x, In x l -> (a <= x)%Q
  end.

(** The exact sums that [sum(l)] goes through when it starts from [acc]. *)
Fixpoint partial_sums (acc : Q) (l : list Q) : list Q :=
  match l with
  | [] => []
  | x :: r => (acc + x)%Q :: partial_sums (acc + x)%Q r
  end.

(** No operation of [sum(l) / len(l)] rounds: every partial sum is a float,
    and so is the sum over the count. *)
Definition unrounded (l : list Q) : Prop :=
  Forall is_float (partial_sums 0 l)
  /\ is_float (sum_of l / inject_Z (Z.of_nat (length l))).

(** [a] is the value of [sum(l) / len(l) if l else 0]: the rounded quotient
    of the rounded sum by the count, which is the average of the
    specification when nothing rounds. *)
Definition float_mean_of (l : list Q) (a : Q) : Prop :=
  match l with
  | [] => a = 0%Q
  | _ :: _ =>
      a = round_float (py_sum l / inject_Z (Z.of_nat (length l)))
      /\ (unrounded l -> mean_of l a)
  end.




(** The [record*] operations of the recorder, for statements that range
    over all of them. *)
Inductive RecordOp : Type :=
| op_stt_delay (delay : Q)
| op_ttft (delay : Q)
| op_ttfd (delay : Q)
| op_total_latency (latency : Q)
| op_interruption
| op_user_message
| op_agent_response
| op_error.

Definition run_record (host : Host) (op : RecordOp) : Py unit :=
  match op with
  | op_stt_delay d => record_stt_delay d
  | op_ttft d => record_ttft d
  | op_ttfd d => record_ttfd d
  | op_total_latency d => record_total_latency d
  | op_interruption => record_interruption
  | op_user_message => record_user_message
  | op_agent_response => record_agent_response
  | op_error => record_error
  end.

(** What the operation does to the metrics dict. *)
Definition effect_of (op : RecordOp) : Metrics -> Metrics :=
  match op with
  | op_stt_delay d => append_stt_delay d
  | op_ttft d => append_ttft d
  | op_ttfd d => append_ttfd d
  | op_total_latency d => append_total_latency d
  | op_interruption => incr_interruptions
  | op_user_message => incr_user_messages
  | op_agent_response => incr_agent_responses
  | op_error => incr_errors
  end.

(** Number of samples and counts held by the metrics dict; every [record*]
    operation that takes effect raises it by one. *)
Definition recorded (m : Metrics) : nat :=
  length (stt_delays m) + length (ttft_delays m) + length (ttfd_delays m)
  + length (total_latencies m) + interruptions_count m + user_messages m
  + agent_responses m + errors m.

(** The recorder is outside its Recording state: [start_session] has not
    run, or [end_session] has. *)
Definition not_recording (t : MetricsTracker) : Prop :=
  session_start t = None \/ end_time (metrics t) <> None.

(** The state rule as the specification words it. *)
Definition record_outside_session_raises : Prop :=
  forall (host : Host) (op : RecordOp) (s : St),
    not_recording (tracker s) ->
    fst (run_record host op s) = Raises (Exception "InvalidStateError").

(** The latency flag as the specification words it: compared with the
    configured threshold. *)
Definition target_flag_follows_config : Prop :=
  forall (cls : Config.Config) (m : Metrics) (row : Row),
    summary_data m = Returns row ->
    (Latency_Target_Met_lt_2s row = true
     <-> float_lt (Finite (Average_Total_Latency_s row))
                  (Config.TARGET_LATENCY cls) = true).

(** ** The three phases of [entrypoint] *)

(** The statements before [try]. *)
Definition opening (host : Host) : Py unit :=
  bind (now host)
       (fun t => start_session host ("session_" +:+ pretty (py_int t))).

(** The [try] block with its [except Exception] handler. *)
Definition guarded_loop (host : Host) (ctx : JobContext) : Py unit :=
  try_except
    (bind (create_providers host ctx)
          (fun _ => async_for host (audio_stream ctx) (stream_end ctx)))
    (fun _ => record_error).

(** The [finally] block. *)
Definition teardown (host : Host) : Py unit :=
  bind (end_session host) (fun _ => save_to_excel host default_filename).

(** ** Observations on states and logs *)

Definition is_start (ev : Event) : bool :=
  match ev with call_start_session _ => true | _ => false end.

Definition is_teardown (ev : Event) : bool :=
  match ev with
  | call_end_session | call_save_to_excel _ => true
  | _ => false
  end.

Definition is_interruption (ev : Event) : bool :=
  match ev with call_record_interruption => true | _ => false end.

Definition is_transcribe (ev : Event) : bool :=
  match ev with call_transcribe _ => true | _ => false end.

Definition is_chat (ev : Event) : bool :=
  match ev with call_chat _ => true | _ => false end.

Definition is_synthesize (ev : Event) : bool :=
  match ev with call_synthesize _ => true | _ => false end.

Definition is_send_audio (ev : Event) : bool :=
  match ev with call_send_audio _ => true | _ => false end.

(** Calls that are neither session start, teardown nor interruption. *)
Definition in_loop (ev : Event) : Prop :=
  is_start ev = false /\ is_teardown ev = false /\ is_interruption ev = false.

(** How many logged calls satisfy [p]. *)
Definition count_calls (p : Event -> bool) (s : St) : nat :=
  length (List.filter p (calls s)).

(** The calls logged since the state [s]. *)
Definition calls_since (s s' : St) : list Event :=
  drop (length (calls s)) (calls s').

Definition errors_of (s : St) : nat := errors (metrics (tracker s)).

Definition interruptions_of (s : St) : nat :=
  interruptions_count (metrics (tracker s)).

Definition stt_samples (s : St) : list Q := stt_delays (metrics (tracker s)).

(** ** Scripts *)

(** Every awaited call of the cycle returns. *)
Definition cycle_ok (c : Cycle) : bool :=
  returns (transcribe c) && returns (chat c) && returns (synthesize c)
  && returns (send_audio c).

(** The exception of the first provider call of the cycle that raises; the
    later calls of the cycle are then never made. *)
Definition provider_failure (c : Cycle) : option exn :=
  match transcribe c with
  | Raises e => Some e
  | Returns _ =>
      match chat c with
      | Raises e => Some e
      | Returns _ =>
          match synthesize c with
          | Raises e => Some e
          | Returns _ => None
          end
      end
  end.

(** How many of the three provider calls are scripted to raise. *)
Definition failing_calls (c : Cycle) : nat :=
  Nat.b2n (negb (returns (transcribe c)))
  + Nat.b2n (negb (returns (chat c)))
  + Nat.b2n (negb (returns (synthesize c))).

(** No call of the spreadsheet library fails. *)
Definition healthy (host : Host) : Prop :=
  fault_DataFrame host = None /\ fault_read_excel host = None
  /\ fault_to_excel host = None.




(** The failures of the spreadsheet library are errors: instances of
    [Exception]. *)
Definition ordinary_faults (host : Host) : Prop :=
  forall e, In (Some e) [fault_DataFrame host; fault_read_excel host;
                         fault_to_excel host] ->
            is_Exception e = true.

(** ** Relational invariants of statements *)

(** Whatever the statement does and however it ends, the state it leaves is
    related by [R] to the one it started in. *)
Definition steps (R : St -> St -> Prop) {A} (m : Py A) : Prop :=
  forall s, R s (snd (m s)).

(** A projection of the state is left as it was. *)
Definition same {X} (f : St -> X) : St -> St -> Prop := fun s s' => f s' = f s.

(** The statement only adds calls, all of them satisfying [P]. *)
Definition emits (P : Event -> Prop) : St -> St -> Prop :=
  fun s s' => exists evs, calls s' = (calls s ++ evs)%list /\ Forall P evs.

(** ** Two policies as the specification words them *)

(** Degraded-continue: a cycle with one failing provider call costs one
    error record and that cycle only; every segment of the stream is still
    taken up. *)
Definition degraded_continue : Prop :=
  forall (host : Host) (ctx : JobContext) (s : St)
         (pre : list Cycle) (bad : Cycle) (post : list Cycle),
    providers_fault ctx = None ->
    stream_end ctx = end_of_stream ->
    audio_stream ctx = (pre ++ bad :: post)%list ->
    Forall (fun c => cycle_ok c = true) pre ->
    Forall (fun c => cycle_ok c = true) post ->
    failing_calls bad = 1 ->
    (forall e, provider_failure bad = Some e -> is_Exception e = true) ->
    let s' := snd (entrypoint host ctx s) in
    errors_of s' = errors_of s + 1
    /\ count_calls is_transcribe s'
       = count_calls is_transcribe s + length (audio_stream ctx).

(** Interruption: segment [b] reaches the transport while segment [a] is
    between the start of its transcription and the arrival of its
    synthesized audio (clock readings 3 and 8 counted from the start of
    the session); then [a]'s audio is not sent, one interruption is
    recorded, [b] is taken up, and no segment has two STT samples. *)
Definition interruption_restarts_cycle : Prop :=
  forall (host : Host) (ctx : JobContext) (s : St)
         (a b : Cycle) (rest : list Cycle)
         (user_text response_text audio : string),
    providers_fault ctx = None ->
    audio_stream ctx = a :: b :: rest ->
    transcribe a = Returns user_text ->
    chat a = Returns response_text ->
    synthesize a = Returns audio ->
    (time_time host (3 + tick s) < arrival b)%Q ->
    (arrival b < time_time host (8 + tick s))%Q ->
    let s' := snd (entrypoint host ctx s) in
    ~ In (call_send_audio audio) (calls_since s s')
    /\ interruptions_of s' = interruptions_of s + 1
    /\ In (call_transcribe (audio_chunk b)) (calls_since s s')
    /\ length (stt_samples s')
       <= length (stt_samples s) + length (audio_stream ctx).

(** ** Sample data *)

(** A host whose clocks advance by one unit per reading and whose
    spreadsheet library works. *)
Definition sample_host : Host := {|
  time_time := fun n => inject_Z (Z.of_nat n);
  datetime_now_isoformat := fun n => "T" +:+ pretty n;
  getenv := fun _ => None;
  fault_DataFrame := None;
  fault_read_excel := None;
  fault_to_excel := None
|}.

(** The same host with a spreadsheet file that cannot be read. *)
Definition sample_host_unreadable : Host := {|
  time_time := time_time sample_host;
  datetime_now_isoformat := datetime_now_isoformat sample_host;
  getenv := getenv sample_host;
  fault_DataFrame := None;
  fault_read_excel := Some (Exception "PermissionError");
  fault_to_excel := None
|}.

Definition fresh : St :=
  {| tracker := init; tick := 0; files := ∅; calls := [] |}.

Definition segment (name : string) (at_time : Q) : Cycle := {|
  audio_chunk := name;
  arrival := at_time;
  transcribe := Returns "hello";
  chat := Returns "hi there";
  synthesize := Returns ("audio for " +:+ name);
  send_audio := Returns tt
|}.

Definition segment_stt_fails (name : string) (at_time : Q) : Cycle := {|
  audio_chunk := name;
  arrival := at_time;
  transcribe := Raises (Exception "ProviderError");
  chat := Returns "hi there";
  synthesize := Returns ("audio for " +:+ name);
  send_audio := Returns tt
|}.

Definition stream_of (chunks : list Cycle) : JobContext :=
  {| providers_fault := None; audio_stream := chunks;
     stream_end := end_of_stream |}.

(** A configuration whose target latency is set to one second. *)
Definition strict_config : Config.Config := {|
  Config.LIVEKIT_URL := "ws://localhost:7880";
  Config.LIVEKIT_API_KEY := Some "key";
  Config.LIVEKIT_API_SECRET := Some "secret";
  Config.DEEPGRAM_API_KEY := Some "dg";
  Config.OPENAI_API_KEY := None;
  Config.GROQ_API_KEY := Some "gq";
  Config.ELEVENLABS_API_KEY := Some "";
  Config.CARTESIA_API_KEY := Some "ca";
  Config.TARGET_LATENCY := Finite 1
|}.

(** The same credentials without any LLM key ([GROQ_API_KEY] is set but
    empty). *)
Definition config_without_llm : Config.Config := {|
  Config.LIVEKIT_URL := "ws://localhost:7880";
  Config.LIVEKIT_API_KEY := Some "key";
  Config.LIVEKIT_API_SECRET := Some "secret";
  Config.DEEPGRAM_API_KEY := Some "dg";
  Config.OPENAI_API_KEY := None;
  Config.GROQ_API_KEY := Some "";
  Config.ELEVENLABS_API_KEY := None;
  Config.CARTESIA_API_KEY := Some "ca";
  Config.TARGET_LATENCY := Finite 2
|}.

(** A tracker holding one total-latency sample of a second and a half. *)
Definition slow_metrics : Metrics :=
  append_total_latency (3 # 2) (metrics init).




End Spec.

(** * Further vocabulary *)

Module Views.
Import Main Spec.

(** ** config.py *)

(** The providers of each stage with the credential that enables them, in
    the order in which [get_service_priority] tests them. *)
Definition provider_table (cls : Config.Config)
  : list (string * list (string * option string)) :=
  [("stt", [("deepgram", Config.DEEPGRAM_API_KEY cls);
            ("openai", Config.OPENAI_API_KEY cls)]);
   ("llm", [("groq", Config.GROQ_API_KEY cls);
            ("openai", Config.OPENAI_API_KEY cls)]);
   ("tts", [("elevenlabs", Config.ELEVENLABS_API_KEY cls);
            ("cartesia", Config.CARTESIA_API_KEY cls);
            ("openai", Config.OPENAI_API_KEY cls)])].

(** The providers of a table row whose credential is set. *)
Definition enabled (row : list (string * option string)) : list string :=
  map fst (List.filter (fun p => truthy_str (snd p)) row).

(** A credential that is set to the empty string, read as not set. *)
Definition drop_empty (v : option string) : option string :=
  if truthy_str v then v else None.

Definition normalize (cls : Config.Config) : Config.Config := {|
  Config.LIVEKIT_URL := Config.LIVEKIT_URL cls;
  Config.LIVEKIT_API_KEY := drop_empty (Config.LIVEKIT_API_KEY cls);
  Config.LIVEKIT_API_SECRET := drop_empty (Config.LIVEKIT_API_SECRET cls);
  Config.DEEPGRAM_API_KEY := drop_empty (Config.DEEPGRAM_API_KEY cls);
  Config.OPENAI_API_KEY := drop_empty (Config.OPENAI_API_KEY cls);
  Config.GROQ_API_KEY := drop_empty (Config.GROQ_API_KEY cls);
  Config.ELEVENLABS_API_KEY := drop_empty (Config.ELEVENLABS_API_KEY cls);
  Config.CARTESIA_API_KEY := drop_empty (Config.CARTESIA_API_KEY cls);
  Config.TARGET_LATENCY := Config.TARGET_LATENCY cls
|}.

(** The same configuration with another target latency. *)
Definition with_target (target : pyfloat) (cls : Config.Config)
  : Config.Config := {|
  Config.LIVEKIT_URL := Config.LIVEKIT_URL cls;
  Config.LIVEKIT_API_KEY := Config.LIVEKIT_API_KEY cls;
  Config.LIVEKIT_API_SECRET := Config.LIVEKIT_API_SECRET cls;
  Config.DEEPGRAM_API_KEY := Config.DEEPGRAM_API_KEY cls;
  Config.OPENAI_API_KEY := Config.OPENAI_API_KEY cls;
  Config.GROQ_API_KEY := Config.GROQ_API_KEY cls;
  Config.ELEVENLABS_API_KEY := Config.ELEVENLABS_API_KEY cls;
  Config.CARTESIA_API_KEY := Config.CARTESIA_API_KEY cls;
  Config.TARGET_LATENCY := target
|}.

(** How many stages have no provider. *)
Definition missing_stages (cls : Config.Config) : nat :=
  length (List.filter (fun stage => negb (Config.has_provider cls stage))
                      Config.stages).

(** The first entry of a priority list, or the provider that [entrypoint]
    builds without a key when the list is empty. *)
Definition first_or_openai (providers : option (list string)) : string :=
  match providers with
  | Some (p :: _) => p
  | _ => "openai"
  end.


(** ** config.py: the report printed on import *)

(** [sep.join(l)] *)
Fixpoint join (sep : string) (l : list string) : string :=
  match l with
  | [] => ""
  | x :: r =>
      match r with
      | [] => x
      | _ :: _ => x +:+ sep +:+ join sep r
      end
  end.

(** The lines printed by the module-level statements that follow the class,
    given the status returned by [Config.validate_config()]. *)
Definition startup_report (config_status : Config.Status) : list string :=
  ((if negb (Config.valid config_status)
    then "⚠️  Configuration Issues Found:"
         :: map (fun error => "   ❌ " +:+ error) (Config.errors config_status)
    else [])
   ++ (if truthy_list (Config.warnings config_status)
       then "⚠️  Configuration Warnings:"
            :: map (fun warning => "   ⚠️  " +:+ warning)
                   (Config.warnings config_status)
       else [])
   ++ (if Config.valid config_status
       then "✅ Configuration validated successfully"
            :: "📊 Available services:"
            :: map (fun item =>
                      "   " +:+ upper (fst item) +:+ ": "
                      +:+ (if truthy_list (snd item)
                           then join ", " (snd item) else "None"))
                   (Config.available_services config_status)
       else []))%list.

(** The line of the report for a stage that has providers. *)
Definition service_line (item : string * list string) : string :=
  "   " +:+ upper (fst item) +:+ ": " +:+ join ", " (snd item).

(** ** main.py *)

Definition raised {A} (o : outcome A) : list exn :=
  match o with
  | Returns _ => []
  | Raises e => [e]
  end.

(** Every exception a script can raise. *)
Definition cycle_exceptions (c : Cycle) : list exn :=
  (raised (transcribe c) ++ raised (chat c) ++ raised (synthesize c)
   ++ raised (send_audio c))%list.

Definition script_exceptions (ctx : JobContext) : list exn :=
  (match providers_fault ctx with Some e => [e] | None => [] end
   ++ concat (map cycle_exceptions (audio_stream ctx))
   ++ match stream_end ctx with stream_raises e => [e] | end_of_stream => [] end
  )%list.

(** The exception that ends the cycle: the first awaited call that raises. *)
Definition cycle_raises (c : Cycle) : option exn :=
  match provider_failure c with
  | Some e => Some e
  | None =>
      match send_audio c with
      | Raises e => Some e
      | Returns _ => None
      end
  end.

(** The counters of the metrics dict and the number of samples it holds per
    measured quantity. *)
Record Tally : Type := {
  n_user_messages : nat;
  n_agent_responses : nat;
  n_errors : nat;
  n_interruptions : nat;
  n_stt : nat;
  n_ttft : nat;
  n_ttfd : nat;
  n_total : nat
}.

Definition tally (s : St) : Tally :=
  let m := metrics (tracker s) in
  {| n_user_messages := user_messages m;
     n_agent_responses := agent_responses m;
     n_errors := errors m;
     n_interruptions := interruptions_count m;
     n_stt := length (stt_delays m);
     n_ttft := length (ttft_delays m);
     n_ttfd := length (ttfd_delays m);
     n_total := length (total_latencies m) |}.

(** What one cycle adds to the tally, read off the outcomes of its three
    provider calls. *)
Definition cycle_tally (c : Cycle) (t : Tally) : Tally :=
  let heard := Nat.b2n (returns (transcribe c)) in
  let answered := Nat.b2n (returns (transcribe c) && returns (chat c)) in
  let spoken :=
    Nat.b2n (returns (transcribe c) && returns (chat c)
             && returns (synthesize c)) in
  {| n_user_messages := n_user_messages t + heard;
     n_agent_responses := n_agent_responses t + spoken;
     n_errors := n_errors t;
     n_interruptions := n_interruptions t;
     n_stt := n_stt t + heard;
     n_ttft := n_ttft t + answered;
     n_ttfd := n_ttfd t + spoken;
     n_total := n_total t |}.

(** The tally after [n] cycles that all succeed. *)
Definition tally_after (n : nat) (t : Tally) : Tally :=
  {| n_user_messages := n_user_messages t + n;
     n_agent_responses := n_agent_responses t + n;
     n_errors := n_errors t;
     n_interruptions := n_interruptions t;
     n_stt := n_stt t + n;
     n_ttft := n_ttft t + n;
     n_ttfd := n_ttfd t + n;
     n_total := n_total t |}.

Definition with_error (t : Tally) : Tally :=
  {| n_user_messages := n_user_messages t;
     n_agent_responses := n_agent_responses t;
     n_errors := n_errors t + 1;
     n_interruptions := n_interruptions t;
     n_stt := n_stt t;
     n_ttft := n_ttft t;
     n_ttfd := n_ttfd t;
     n_total := n_total t |}.

Definition is_record_error (ev : Event) : bool :=
  match ev with call_record_error => true | _ => false end.

(** The clock never runs backwards. *)
Definition monotone (clock : nat -> Q) : Prop :=
  forall i j, i <= j -> (clock i <= clock j)%Q.

Definition all_nonneg (l : list Q) : Prop := Forall (fun d => (0 <= d)%Q) l.

(** The samples of the three stage timings. *)
Definition stage_samples (s : St) : list Q :=
  (stt_delays (metrics (tracker s)) ++ ttft_delays (metrics (tracker s))
   ++ ttfd_delays (metrics (tracker s)))%list.


(** A property of the state that a statement does not destroy. *)
Definition keeps (P : St -> Prop) : St -> St -> Prop := fun s s' => P s -> P s'.

(** The clock position does not move back. *)
Definition later : St -> St -> Prop := fun s s' => tick s <= tick s'.

(** The session id that [entrypoint] derives from a clock reading. *)
Definition session_id_at (t : Q) : string := "session_" +:+ pretty (py_int t).

(** A state whose only file is [filename], holding [rows]. *)
Definition stored (filename : string) (rows : list Row) : St :=
  {| tracker := init; tick := 0; files := {[ filename := rows ]}; calls := [] |}.

(** The rows of the metrics file. *)
Definition exported (s : St) : list Row :=
  default [] (files s !! default_filename).

(** The row computed from a tracker on which nothing was recorded. *)
Definition empty_row : Row := {|
  Session_ID := None;
  Start_Time := None;
  End_Time := None;
  Total_Duration_s := 0;
  User_Messages := 0;
  Agent_Responses := 0;
  Interruptions := 0;
  Average_STT_Delay_s := 0;
  Average_TTFT_s := 0;
  Average_TTFD_s := 0;
  Average_Total_Latency_s := 0;
  Max_Latency_s := 0;
  Min_Latency_s := 0;
  Errors := 0;
  Latency_Target_Met_lt_2s := true
|}.

(** ** Further sample data *)

Definition segment_send_fails (name : string) (at_time : Q) : Cycle := {|
  audio_chunk := name;
  arrival := at_time;
  transcribe := Returns "hello";
  chat := Returns "hi there";
  synthesize := Returns ("audio for " +:+ name);
  send_audio := Raises (Exception "TransportError")
|}.

(** A stream that is cancelled after its segments. *)
Definition cancelled_stream (chunks : list Cycle) : JobContext :=
  {| providers_fault := None; audio_stream := chunks;
     stream_end := stream_raises (BaseException "CancelledError") |}.

(** A configuration with the LiveKit credentials and an OpenAI key only;
    [ELEVENLABS_API_KEY] is set but empty. *)
Definition openai_only : Config.Config := {|
  Config.LIVEKIT_URL := "ws://localhost:7880";
  Config.LIVEKIT_API_KEY := Some "key";
  Config.LIVEKIT_API_SECRET := Some "secret";
  Config.DEEPGRAM_API_KEY := None;
  Config.OPENAI_API_KEY := Some "sk";
  Config.GROQ_API_KEY := None;
  Config.ELEVENLABS_API_KEY := Some "";
  Config.CARTESIA_API_KEY := None;
  Config.TARGET_LATENCY := Finite 2
|}.

End Views.

(** * test_setup.py *)

Module TestSetup.
Import Main.

(** [SetupTester.test_results]; the two dicts keep insertion order. *)
Record TestResults : Type := {
  config_validation : bool;
  api_connections : list (string * bool);
  metrics_system : bool;
  pipeline_components : list (string * bool);
  performance_test : bool
}.

(** [SetupTester.__init__] *)
Definition init_results : TestResults := {|
  config_validation := false;
  api_connections := [];
  metrics_system := false;
  pipeline_components := [];
  performance_test := false
|}.

(** [d[key] = value] on a dict: the value of an existing key is replaced in
    place, a new key goes last. *)
Fixpoint dict_set (key : string) (value : bool) (d : list (string * bool))
  : list (string * bool) :=
  match d with
  | [] => [(key, value)]
  | (k, v) :: rest =>
      if String.eqb k key then (k, value) :: rest
      else (k, v) :: dict_set key value rest
  end.

Definition set_api (key : string) (value : bool) (r : TestResults) : TestResults :=
  {| config_validation := config_validation r;
     api_connections := dict_set key value (api_connections r);
     metrics_system := metrics_system r;
     pipeline_components := pipeline_components r;
     performance_test := performance_test r |}.

Definition set_metrics_system (value : bool) (r : TestResults) : TestResults :=
  {| config_validation := config_validation r;
     api_connections := api_connections r;
     metrics_system := value;
     pipeline_components := pipeline_components r;
     performance_test := performance_test r |}.

(** [if key: try: await asyncio.sleep(0.1); results[name] = True
    except Exception: results[name] = False]; the sleep returns. *)
Definition probe (key : option string) (name : string) (r : TestResults)
  : TestResults :=
  if truthy_str key then set_api name true r else r.

Definition _test_stt_apis (cls : Config.Config) (r : TestResults) : TestResults :=
  let r := probe (Config.DEEPGRAM_API_KEY cls) "deepgram_stt" r in
  probe (Config.OPENAI_API_KEY cls) "openai_stt" r.

Definition _test_llm_apis (cls : Config.Config) (r : TestResults) : TestResults :=
  let r := probe (Config.GROQ_API_KEY cls) "groq_llm" r in
  probe (Config.OPENAI_API_KEY cls) "openai_llm" r.

Definition _test_tts_apis (cls : Config.Config) (r : TestResults) : TestResults :=
  let r := probe (Config.ELEVENLABS_API_KEY cls) "elevenlabs_tts" r in
  probe (Config.CARTESIA_API_KEY cls) "cartesia_tts" r.

Definition test_api_connections (cls : Config.Config) (r : TestResults)
  : TestResults :=
  _test_tts_apis cls (_test_llm_apis cls (_test_stt_apis cls r)).

(** [test_metrics_system]: the local variable [tracker] takes the tracker
    slot of the state; the literals [0.15], [0.45], [0.75] and [1.2] are the
    floats nearest to these decimals. *)
Definition test_metrics_system (host : Host) (r : TestResults) : Py TestResults :=
  try_except
    (bind (update_self (fun _ => init)) (fun _ =>
     bind (start_session host "test_session_001") (fun _ =>
     bind (record_stt_delay (round_float (15 # 100))) (fun _ =>
     bind (record_ttft (round_float (45 # 100))) (fun _ =>
     bind (record_ttfd (round_float (75 # 100))) (fun _ =>
     bind (record_total_latency (round_float (12 # 10))) (fun _ =>
     bind record_user_message (fun _ =>
     bind record_agent_response (fun _ =>
     bind record_interruption (fun _ =>
     bind (end_session host) (fun _ =>
     bind (save_to_excel host "test_metrics.xlsx") (fun _ =>
     ret (set_metrics_system true r)))))))))))))
    (fun _ => ret (set_metrics_system false r)).

(** How many providers the priority lists of a configuration name. *)
Definition configured_providers (cls : Config.Config) : nat :=
  list_sum (map (fun item => length (snd item)) (Config.get_service_priority cls)).

End TestSetup.

(** * Properties of config.py *)

Section ConfigFacts.
Import Config.

(** Reduces a statement about [validate_config cls] to the truth values of
    the seven credentials and of the latency warning. *)
Ltac split_keys cls :=
  destruct cls as [url lk ls dg oa gq el ca tl];
  unfold has_provider, stage_keys, transport_credentials, validate_config,
    get_service_priority, append_if in *;
  cbn [existsb String.eqb Ascii.eqb Bool.eqb
       LIVEKIT_API_KEY LIVEKIT_API_SECRET DEEPGRAM_API_KEY OPENAI_API_KEY
       GROQ_API_KEY ELEVENLABS_API_KEY CARTESIA_API_KEY TARGET_LATENCY] in *;
  generalize (truthy_str lk); generalize (truthy_str ls);
  generalize (truthy_str dg); generalize (truthy_str oa);
  generalize (truthy_str gq); generalize (truthy_str el);
  generalize (truthy_str ca); generalize (float_gt tl (Finite 3)).

Lemma valid_formula (cls : Config) :
  valid (validate_config cls)
  = transport_credentials cls && has_provider cls "stt"
    && has_provider cls "llm" && has_provider cls "tts".
Proof. split_keys cls. intros [] [] [] [] [] [] [] []; reflexivity. Qed.

Lemma missing_stage_invalid (cls : Config) (stage : string) :
  In stage stages ->
  has_provider cls stage = false ->
  valid (validate_config cls) = false
  /\ services_of (validate_config cls) stage = Some []
  /\ In (no_service_message stage) (errors (validate_config cls))
  /\ contains (upper stage) (no_service_message stage) = true.
Proof.
  intros [<-|[<-|[<-|[]]]] H; revert H; split_keys cls.
  all: intros [] [] [] [] [] [] [] [] H; try discriminate H.
  all: vm_compute; repeat split; auto 8.
Qed.

(** C7. [validate_config] reports [valid = False], an empty provider list
    and an error naming the stage (in upper case) for every stage none of
    whose credentials is set, and [valid = True] when the LiveKit key and
    secret are set and each of the three stages has a credential set. *)
Theorem validate_config_stages (cls : Config) :
  (forall stage,
      In stage stages ->
      has_provider cls stage = false ->
      valid (validate_config cls) = false
      /\ services_of (validate_config cls) stage = Some []
      /\ In (no_service_message stage) (errors (validate_config cls))
      /\ contains (upper stage) (no_service_message stage) = true)
  /\ (transport_credentials cls = true ->
      (forall stage, In stage stages -> has_provider cls stage = true) ->
      valid (validate_config cls) = true).
Proof.
  split.
  - apply missing_stage_invalid.
  - intros Ht Hs. rewrite valid_formula, Ht.
    rewrite !Hs by (cbn; auto). reflexivity.
Qed.

Lemma validate_config_stages_witness :
  (valid (validate_config Spec.config_without_llm) = false
   /\ services_of (validate_config Spec.config_without_llm) "llm" = Some []
   /\ In "No LLM service configured"
         (errors (validate_config Spec.config_without_llm))
   /\ contains "LLM" "No LLM service configured" = true)
  /\ valid (validate_config Spec.strict_config) = true.
Proof.
  split.
  - apply (proj1 (validate_config_stages Spec.config_without_llm) "llm").
    + cbn; auto.
    + reflexivity.
  - apply (proj2 (validate_config_stages Spec.strict_config)).
    + reflexivity.
    + intros stage [<-|[<-|[<-|[]]]]; reflexivity.
Defined.

End ConfigFacts.

(** * Properties of MetricsTracker *)

Section SummaryFacts.
Import Main Spec.
Local Open Scope Q_scope.

Lemma Qltb_lt (x y : Q) : Qltb x y = true <-> x < y.
Proof.
  unfold Qltb. rewrite negb_true_iff. split.
  - intros H. apply Qnot_le_lt. intros Hle.
    apply Qle_bool_iff in Hle. congruence.
  - intros H. destruct (Qle_bool y x) eqn:E; [|reflexivity].
    apply Qle_bool_iff in E. exfalso. exact (Qlt_not_le _ _ H E).
Qed.

Lemma Qltb_ge (x y : Q) : Qltb x y = false <-> y <= x.
Proof.
  unfold Qltb. rewrite negb_false_iff. apply Qle_bool_iff.
Qed.

Lemma round_float_comp (p q : Q) : p == q -> round_float p = round_float q.
Proof.
  intros H. unfold round_float. rewrite (Qred_complete _ _ H). reflexivity.
Qed.

(** As long as the partial sums are floats, adding from the left with
    rounding gives the exact sum. *)
Lemma fold_add_exact (l : list Q) (a a' : Q) :
  a == a' ->
  Forall is_float (partial_sums a' l) ->
  fold_left py_add l a == a' + sum_of l.
Proof.
  revert a a'; induction l as [|x r IH]; intros a a' Ha H;
    cbn [fold_left sum_of partial_sums] in *.
  - rewrite Ha. ring.
  - inversion H as [|? ? Hx Hr]; subst.
    rewrite (IH (py_add a x) (a' + x)); [ring| |exact Hr].
    unfold py_add. rewrite (round_float_comp (a + x) (a' + x)).
    + exact Hx.
    + rewrite Ha. reflexivity.
Qed.

Lemma py_sum_exact (l : list Q) :
  Forall is_float (partial_sums 0 l) -> py_sum l == sum_of l.
Proof.
  intros H. unfold py_sum. rewrite (fold_add_exact l 0 0 (Qeq_refl 0) H). ring.
Qed.

Lemma py_len_cons_nonzero (x : Q) (r : list Q) :
  Qeq_bool (py_len (x :: r)) 0 = false.
Proof.
  destruct (Qeq_bool (py_len (x :: r)) 0) eqn:E; [|reflexivity].
  apply Qeq_bool_iff in E. unfold py_len, Qeq in E. cbn in E. lia.
Qed.

Lemma average_returns (l : list Q) :
  exists a, average l = Returns a /\ float_mean_of l a.
Proof.
  destruct l as [|x r].
  - exists 0. split; reflexivity.
  - exists (round_float (py_sum (x :: r) / py_len (x :: r))). split.
    + unfold average, py_truediv. cbn [truthy_list].
      rewrite py_len_cons_nonzero. reflexivity.
    + split; [reflexivity|]. intros [Hsums Hquot]. unfold mean_of.
      rewrite (round_float_comp _ (sum_of (x :: r) / py_len (x :: r))).
      * exact Hquot.
      * rewrite (py_sum_exact _ Hsums). reflexivity.
Qed.

Lemma fold_max_spec (r : list Q) (x : Q) :
  let a := fold_left (fun m y => if Qltb m y then y else m) r x in
  In a (x :: r) /\ forall y, In y (x :: r) -> y <= a.
Proof.
  revert x; induction r as [|z r IH]; intros x; cbn [fold_left].
  - split; [left; reflexivity|]. intros y [<-|[]]. apply Qle_refl.
  - destruct (Qltb x z) eqn:E.
    + destruct (IH z) as [Hin Hle]. split.
      * right. exact Hin.
      * intros y [<-|Hy]; [|exact (Hle y Hy)].
        apply Qltb_lt in E. apply Qle_trans with z.
        -- apply Qlt_le_weak, E.
        -- apply Hle. left. reflexivity.
    + destruct (IH x) as [Hin Hle]. split.
      * destruct Hin as [<-|Hin]; [left; reflexivity|right; right; exact Hin].
      * intros y [<-|[<-|Hy]].
        -- apply Hle. left. reflexivity.
        -- apply Qltb_ge in E. apply Qle_trans with x; [exact E|].
           apply Hle. left. reflexivity.
        -- apply Hle. right. exact Hy.
Qed.

Lemma fold_min_spec (r : list Q) (x : Q) :
  let a := fold_left (fun m y => if Qltb y m then y else m) r x in
  In a (x :: r) /\ forall y, In y (x :: r) -> a <= y.
Proof.
  revert x; induction r as [|z r IH]; intros x; cbn [fold_left].
  - split; [left; reflexivity|]. intros y [<-|[]]. apply Qle_refl.
  - destruct (Qltb z x) eqn:E.
    + destruct (IH z) as [Hin Hle]. split.
      * right. exact Hin.
      * intros y [<-|Hy]; [|exact (Hle y Hy)].
        apply Qltb_lt in E. apply Qle_trans with z.
        -- apply Hle. left. reflexivity.
        -- apply Qlt_le_weak, E.
    + destruct (IH x) as [Hin Hle]. split.
      * destruct Hin as [<-|Hin]; [left; reflexivity|right; right; exact Hin].
      * intros y [<-|[<-|Hy]].
        -- apply Hle. left. reflexivity.
        -- apply Qltb_ge in E. apply Qle_trans with x; [|exact E].
           apply Hle. left. reflexivity.
        -- apply Hle. right. exact Hy.
Qed.

Lemma guarded_max (l : list Q) :
  exists a, (if truthy_list l then py_max l else Returns 0) = Returns a
            /\ max_of l a.
Proof.
  destruct l as [|x r]; [exists 0; split; reflexivity|].
  eexists. split; [reflexivity|]. apply fold_max_spec.
Qed.

Lemma guarded_min (l : list Q) :
  exists a, (if truthy_list l then py_min l else Returns 0) = Returns a
            /\ min_of l a.
Proof.
  destruct l as [|x r]; [exists 0; split; reflexivity|].
  eexists. split; [reflexivity|]. apply fold_min_spec.
Qed.

(** The row computed from a metrics dict, field by field. *)
Lemma summary_data_fields (m : Metrics) :
  exists row,
    summary_data m = Returns row
    /\ average (stt_delays m) = Returns (Average_STT_Delay_s row)
    /\ average (ttft_delays m) = Returns (Average_TTFT_s row)
    /\ average (ttfd_delays m) = Returns (Average_TTFD_s row)
    /\ average (total_latencies m) = Returns (Average_Total_Latency_s row)
    /\ max_of (total_latencies m) (Max_Latency_s row)
    /\ min_of (total_latencies m) (Min_Latency_s row)
    /\ Latency_Target_Met_lt_2s row = Qltb (Average_Total_Latency_s row) 2.
Proof.
  unfold summary_data.
  destruct (average_returns (stt_delays m)) as (a1 & -> & _).
  destruct (average_returns (ttft_delays m)) as (a2 & -> & _).
  destruct (average_returns (ttfd_delays m)) as (a3 & -> & _).
  destruct (average_returns (total_latencies m)) as (a4 & -> & _).
  destruct (guarded_max (total_latencies m)) as (hi & -> & Hhi).
  destruct (guarded_min (total_latencies m)) as (lo & -> & Hlo).
  cbn [outcome_bind]. eexists. split; [reflexivity|].
  cbn. repeat split; assumption.
Qed.




(** C8, amended. The exported flag is true exactly when the average total
    latency is below the constant 2.0 written in [save_to_excel]; no
    configuration value enters the computation. *)
Theorem latency_flag_constant (m : Metrics) :
  exists row,
    summary_data m = Returns row
    /\ (Latency_Target_Met_lt_2s row = true
        <-> Average_Total_Latency_s row < 2).
Proof.
  destruct (summary_data_fields m) as (row & Hrow & _ & _ & _ & _ & _ & _ & Hflag).
  exists row. split; [exact Hrow|]. rewrite Hflag. apply Qltb_lt.
Qed.

(** C8, as stated, fails: with the target latency configured to one second
    and a single total-latency sample of a second and a half, the exported
    flag is true although the average is not below the configured target. *)
Lemma target_flag_ignores_config :
  (exists row,
      summary_data slow_metrics = Returns row
      /\ Average_Total_Latency_s row == 3 # 2
      /\ Config.TARGET_LATENCY strict_config = Finite 1
      /\ ~ (Average_Total_Latency_s row < 1)
      /\ float_lt (Finite (Average_Total_Latency_s row))
                  (Config.TARGET_LATENCY strict_config) = false
      /\ Latency_Target_Met_lt_2s row = true)
  /\ ~ target_flag_follows_config.
Proof.
  destruct (summary_data_fields slow_metrics) as (row & Hrow & _).
  assert (Hflag : Latency_Target_Met_lt_2s row = true
                  /\ Average_Total_Latency_s row == 3 # 2
                  /\ float_lt (Finite (Average_Total_Latency_s row))
                              (Config.TARGET_LATENCY strict_config) = false).
  { vm_compute in Hrow. injection Hrow as <-. repeat split. }
  destruct Hflag as (Hflag & Havg & Hnot).
  split.
  - exists row. repeat split; try assumption.
    rewrite Havg. intros Hlt. vm_compute in Hlt. discriminate Hlt.
  - intros H. apply (H strict_config slow_metrics row Hrow) in Hflag.
    rewrite Hnot in Hflag. discriminate Hflag.
Qed.

(** C2, amended. Every [record*] operation returns normally in every
    state of the recorder, started or not, ended or not, and takes effect:
    it appends its sample or increments its counter. *)
Theorem record_always_takes_effect (host : Host) (op : RecordOp) (s : St) :
  let s' := snd (run_record host op s) in
  fst (run_record host op s) = Returns tt
  /\ metrics (tracker s') = effect_of op (metrics (tracker s))
  /\ session_start (tracker s') = session_start (tracker s)
  /\ recorded (metrics (tracker s')) = S (recorded (metrics (tracker s))).
Proof.
  destruct op; cbn; unfold recorded; cbn; rewrite ?length_app; cbn;
    repeat split; lia.
Qed.

(** C2, as stated, fails: on a tracker that was never started
    [record_error] returns and counts the error. *)
Lemma record_before_start_returns :
  session_start (tracker fresh) = None
  /\ fst (record_error fresh) = Returns tt
  /\ errors_of (snd (record_error fresh)) = 1%nat
  /\ ~ record_outside_session_raises.
Proof.
  repeat split. intros H.
  assert (Hn : not_recording (tracker fresh)) by (left; reflexivity).
  specialize (H sample_host op_error fresh Hn).
  vm_compute in H. discriminate H.
Qed.

End SummaryFacts.

(** * Relational invariants of Python statements *)

Import Main Spec.

Section Steps.
Context (R : St -> St -> Prop) `{!PreOrder R}.

Lemma steps_ret {A} (a : A) : steps R (ret a).
Proof. intros s. reflexivity. Qed.

Lemma steps_raise {A} (e : exn) : steps R (@raise A e).
Proof. intros s. reflexivity. Qed.

Lemma steps_lift {A} (o : outcome A) : steps R (lift o).
Proof. intros s. reflexivity. Qed.

Lemma steps_get_self : steps R get_self.
Proof. intros s. reflexivity. Qed.

Lemma steps_get_files : steps R get_files.
Proof. intros s. reflexivity. Qed.

Lemma steps_bind {A B} (m : Py A) (k : A -> Py B) :
  steps R m -> (forall a, steps R (k a)) -> steps R (bind m k).
Proof.
  intros Hm Hk s. unfold bind. specialize (Hm s).
  destruct (m s) as [[a|e] s1]; cbn [snd] in *; [|exact Hm].
  etransitivity; [exact Hm|apply Hk].
Qed.

Lemma steps_try_except {A} (body : Py A) (handler : exn -> Py A) :
  steps R body -> (forall e, steps R (handler e)) -> steps R (try_except body handler).
Proof.
  intros Hb Hh s. unfold try_except. specialize (Hb s).
  destruct (body s) as [[a|e] s1]; cbn [snd] in *; [exact Hb|].
  destruct (is_Exception e); cbn [snd]; [|exact Hb].
  etransitivity; [exact Hb|apply Hh].
Qed.

Lemma steps_try_finally {A} (body : Py A) (final : Py unit) :
  steps R body -> steps R final -> steps R (try_finally body final).
Proof.
  intros Hb Hf s. unfold try_finally. specialize (Hb s).
  destruct (body s) as [r s1]. specialize (Hf s1).
  destruct (final s1) as [[u|e] s2]; cbn [snd] in *;
    etransitivity; eassumption.
Qed.

Lemma steps_or_fault {A} (fault : option exn) (m : Py A) :
  steps R m -> steps R (or_fault fault m).
Proof. intros Hm. destruct fault; [apply steps_raise|exact Hm]. Qed.

Lemma steps_async_for (host : Host) (chunks : list Cycle) (stop : StreamEnd) :
  (forall c, steps R (process_chunk host c)) -> steps R (async_for host chunks stop).
Proof.
  intros Hc. induction chunks as [|c rest IH]; cbn [async_for].
  - destruct stop; [apply steps_ret|apply steps_raise].
  - apply steps_bind; [apply Hc|intros _; exact IH].
Qed.
End Steps.

#[local] Instance same_preorder {X} (f : St -> X) : PreOrder (same f).
Proof.
  split.
  - intros s. reflexivity.
  - intros s1 s2 s3 H12 H23. unfold same in *. congruence.
Qed.

#[local] Instance emits_preorder (P : Event -> Prop) : PreOrder (emits P).
Proof.
  split.
  - intros s. exists []. split; [symmetry; apply app_nil_r|constructor].
  - intros s1 s2 s3 (e1 & H1 & F1) (e2 & H2 & F2). exists (e1 ++ e2)%list. split.
    + rewrite H2, H1, app_assoc. reflexivity.
    + apply Forall_app. split; assumption.
Qed.

Ltac unfold_methods :=
  unfold save_to_excel, end_session, start_session, create_providers,
    record_stt_delay, record_ttft, record_ttfd, record_total_latency,
    record_interruption, record_user_message, record_agent_response,
    record_error, pd_DataFrame, os_path_exists, pd_read_excel, to_excel,
    update_metrics, now, now_iso.

Ltac steps_struct :=
  repeat
    (first
       [ match goal with |- forall _, _ => intro end
       | apply steps_ret | apply steps_raise | apply steps_lift
       | apply steps_get_self | apply steps_get_files
       | apply steps_bind
       | apply steps_try_except
       | apply steps_try_finally
       | apply steps_or_fault
       | match goal with
         | |- steps _ (if ?b then _ else _) => destruct b
         | |- steps _ (match ?x with _ => _ end) => destruct x
         end ];
     try (solve [apply _])).

(** Leaves: a primitive state update. *)
Ltac same_leaf := intros ?; reflexivity.

Ltac emits_leaf :=
  intros ?; cbn;
  first [ exists []; split; [symmetry; apply app_nil_r|constructor]
        | eexists [_]; split; [reflexivity|repeat constructor] ].

Lemma bind_returns {A B} (m : Py A) (k : A -> Py B) (s : St) (a : A) :
  fst (m s) = Returns a -> bind m k s = k a (snd (m s)).
Proof. unfold bind. destruct (m s) as [[a'|e] s1]; cbn; congruence. Qed.

Lemma bind_raises {A B} (m : Py A) (k : A -> Py B) (s : St) (e : exn) :
  fst (m s) = Raises e -> bind m k s = (Raises e, snd (m s)).
Proof. unfold bind. destruct (m s) as [[a'|e'] s1]; cbn; congruence. Qed.

Lemma emits_weaken (P Q : Event -> Prop) s s' :
  (forall ev, P ev -> Q ev) -> emits P s s' -> emits Q s s'.
Proof.
  intros HPQ (evs & H & F). exists evs. split; [exact H|].
  eapply Forall_impl; eassumption.
Qed.

Lemma emits_count (P : Event -> Prop) (p : Event -> bool) s s' :
  (forall ev, P ev -> p ev = false) -> emits P s s' ->
  count_calls p s' = count_calls p s.
Proof.
  intros HP (evs & H & F). unfold count_calls. rewrite H, List.filter_app, length_app.
  assert (E : List.filter p evs = []).
  { clear H. induction F as [|ev evs Hev F IH]; [reflexivity|].
    cbn. rewrite (HP ev Hev). exact IH. }
  rewrite E. cbn. lia.
Qed.

Lemma emits_In (P : Event -> Prop) s s' ev :
  emits P s s' -> In ev (calls s) -> In ev (calls s').
Proof. intros (evs & H & _) Hin. rewrite H. apply in_or_app. left. exact Hin. Qed.

(** Statements that leave a projection of the state as it was. *)
Ltac steps_same :=
  unfold opening, guarded_loop, teardown, process_chunk; unfold_methods;
  steps_struct; same_leaf.

(** * The session entrypoint *)

Section Session.
Variable host : Host.

Lemma entrypoint_state (ctx : JobContext) (s : St) :
  snd (entrypoint host ctx s)
  = snd (teardown host (snd (guarded_loop host ctx (snd (opening host s))))).
Proof.
  unfold entrypoint, try_finally.
  change (snd (let '(r, s') := guarded_loop host ctx (snd (opening host s)) in
               match teardown host s' with
               | (Returns _, s'') => (r, s'')
               | (Raises e, s'') => (Raises e, s'')
               end) = snd (teardown host (snd (guarded_loop host ctx (snd (opening host s)))))).
  destruct (guarded_loop host ctx (snd (opening host s))) as [r s2]. cbn [snd].
  destruct (teardown host s2) as [[u|e] s3]; reflexivity.
Qed.

Lemma end_session_returns s : fst (end_session host s) = Returns tt.
Proof.
  unfold end_session, bind. cbn.
  destruct (truthy_float (session_start (tracker s))); reflexivity.
Qed.

Lemma end_session_calls s :
  calls (snd (end_session host s)) = (calls s ++ [call_end_session])%list.
Proof.
  unfold end_session, bind. cbn.
  destruct (truthy_float (session_start (tracker s))); reflexivity.
Qed.

Lemma save_to_excel_calls f s :
  calls (snd (save_to_excel host f s)) = (calls s ++ [call_save_to_excel f])%list.
Proof.
  unfold save_to_excel. unfold bind at 1. cbn [log].
  match goal with
  | |- calls (snd (?m ?s1)) = _ =>
      assert (H : steps (same calls) m)
        by (unfold_methods; steps_struct; same_leaf);
      exact (H s1)
  end.
Qed.

Lemma teardown_calls s :
  calls (snd (teardown host s))
  = (calls s ++ [call_end_session; call_save_to_excel default_filename])%list.
Proof.
  unfold teardown, bind.
  pose proof (end_session_returns s) as Hr.
  pose proof (end_session_calls s) as Hc.
  destruct (end_session host s) as [r s1]. cbn [fst snd] in *. subst r.
  rewrite save_to_excel_calls, Hc, <- app_assoc. reflexivity.
Qed.

Lemma opening_starts : steps (emits (fun ev => is_start ev = true)) (opening host).
Proof. unfold opening. unfold_methods. steps_struct; emits_leaf. Qed.

Lemma process_chunk_in_loop c : steps (emits in_loop) (process_chunk host c).
Proof. unfold process_chunk. unfold_methods. steps_struct; emits_leaf. Qed.

Lemma async_for_in_loop chunks stop :
  steps (emits in_loop) (async_for host chunks stop).
Proof. apply steps_async_for; [apply _|]. apply process_chunk_in_loop. Qed.

Lemma guarded_loop_in_loop ctx : steps (emits in_loop) (guarded_loop host ctx).
Proof.
  unfold guarded_loop. unfold_methods. steps_struct; try emits_leaf.
  apply async_for_in_loop.
Qed.

(** What the whole session logs besides the two teardown calls. *)
Lemma entrypoint_calls ctx s :
  exists during,
    calls (snd (entrypoint host ctx s))
    = (calls s ++ during
       ++ [call_end_session; call_save_to_excel default_filename])%list
    /\ Forall (fun ev => is_teardown ev = false /\ is_interruption ev = false)
              during.
Proof.
  rewrite entrypoint_state, teardown_calls.
  destruct (opening_starts s) as (e1 & H1 & F1).
  destruct (guarded_loop_in_loop ctx (snd (opening host s))) as (e2 & H2 & F2).
  exists (e1 ++ e2)%list. split.
  - rewrite H2, H1, <- !app_assoc. reflexivity.
  - apply Forall_app. split.
    + eapply Forall_impl; [exact F1|]. intros [] H; cbn in *; try discriminate H; auto.
    + eapply Forall_impl; [exact F2|]. intros ev (_ & Ht & Hi). auto.
Qed.

(** C1. However the loop of [entrypoint] ends (end of stream, an exception
    raised by a provider, by the transport or while the providers are built,
    caught or not), the calls logged by the session end with exactly one
    [end_session] followed by exactly one [save_to_excel], and neither is
    called before. *)
Theorem teardown_exactly_once (ctx : JobContext) (s : St) :
  exists during,
    calls (snd (entrypoint host ctx s))
    = (calls s ++ during
       ++ [call_end_session; call_save_to_excel default_filename])%list
    /\ Forall (fun ev => is_teardown ev = false) during.
Proof.
  destruct (entrypoint_calls ctx s) as (during & H & F).
  exists during. split; [exact H|].
  eapply Forall_impl; [exact F|]. intros ev [Ht _]. exact Ht.
Qed.

Lemma async_for_same {X} (f : St -> X) chunks stop :
  (forall c, steps (same f) (process_chunk host c)) ->
  steps (same f) (async_for host chunks stop).
Proof. apply steps_async_for. apply _. Qed.

Lemma process_chunk_files c : steps (same files) (process_chunk host c).
Proof. steps_same. Qed.

Lemma opening_files : steps (same files) (opening host).
Proof. steps_same. Qed.

Lemma guarded_loop_files ctx : steps (same files) (guarded_loop host ctx).
Proof.
  unfold guarded_loop. unfold_methods. steps_struct; try same_leaf.
  apply async_for_same. apply process_chunk_files.
Qed.

Lemma end_session_files : steps (same files) (end_session host).
Proof. steps_same. Qed.

Lemma save_to_excel_healthy f s :
  healthy host ->
  exists row,
    summary_data (metrics (tracker s)) = Returns row
    /\ fst (save_to_excel host f s) = Returns tt
    /\ files (snd (save_to_excel host f s))
       = <[f := (default [] (files s !! f) ++ [row])%list]> (files s)
    /\ tracker (snd (save_to_excel host f s)) = tracker s.
Proof.
  intros (H1 & H2 & H3).
  destruct (summary_data_fields (metrics (tracker s))) as (row & Hrow & _).
  exists row. split; [exact Hrow|].
  unfold save_to_excel, try_except, bind, pd_DataFrame, pd_read_excel, to_excel,
    os_path_exists, or_fault.
  rewrite H1, H2, H3. cbn. rewrite Hrow. cbn.
  destruct (files s !! f) as [rows|] eqn:E; cbn; rewrite ?E; cbn; auto.
Qed.

Lemma save_to_excel_returns f s :
  ordinary_faults host -> fst (save_to_excel host f s) = Returns tt.
Proof.
  intros H.
  assert (H1 : forall e, fault_DataFrame host = Some e -> is_Exception e = true)
    by (intros e E; apply H; rewrite <- E; cbn; auto).
  assert (H2 : forall e, fault_read_excel host = Some e -> is_Exception e = true)
    by (intros e E; apply H; rewrite <- E; cbn; auto).
  assert (H3 : forall e, fault_to_excel host = Some e -> is_Exception e = true)
    by (intros e E; apply H; rewrite <- E; cbn; auto).
  clear H.
  destruct (summary_data_fields (metrics (tracker s))) as (row & Hrow & _).
  unfold save_to_excel, try_except, bind, pd_DataFrame, pd_read_excel, to_excel,
    os_path_exists, or_fault.
  cbn. rewrite Hrow. cbn.
  destruct (fault_DataFrame host) as [e1|]; cbn;
    [rewrite (H1 e1 eq_refl); reflexivity|].
  destruct (files s !! f) as [rows|] eqn:E; cbn; rewrite ?E; cbn.
  - destruct (fault_read_excel host) as [e2|]; cbn;
      [rewrite (H2 e2 eq_refl); reflexivity|].
    rewrite E. cbn.
    destruct (fault_to_excel host) as [e3|]; cbn;
      [rewrite (H3 e3 eq_refl); reflexivity|reflexivity].
  - destruct (fault_to_excel host) as [e3|]; cbn;
      [rewrite (H3 e3 eq_refl); reflexivity|reflexivity].
Qed.



(** C10. [save_to_excel] returns normally in every state of the recorder and
    whichever calls of the spreadsheet library fail, as long as what they
    raise are errors (instances of [Exception]). *)
Theorem save_to_excel_never_raises (filename : string) (s : St) :
  ordinary_faults host ->
  fst (save_to_excel host filename s) = Returns tt.
Proof. apply save_to_excel_returns. Qed.

End Session.

Lemma save_to_excel_never_raises_witness :
  ordinary_faults sample_host_unreadable
  /\ fst (save_to_excel sample_host_unreadable default_filename
            (snd (entrypoint sample_host (stream_of [segment "A" 0]) fresh)))
     = Returns tt.
Proof.
  assert (Ho : ordinary_faults sample_host_unreadable).
  { intros e [H|[H|[H|[]]]]; try discriminate H. injection H as <-. reflexivity. }
  split; [exact Ho|].
  apply (save_to_excel_never_raises sample_host_unreadable); exact Ho.
Defined.

(** * The per-utterance cycle *)

(** Runs the statements of a cycle on a state given by its fields. *)
Ltac run_py :=
  cbv beta iota zeta delta
    [process_chunk bind ret raise lift log now now_iso next_tick get_self
     update_self update_metrics record_stt_delay record_ttft record_ttfd
     record_total_latency record_interruption record_user_message
     record_agent_response record_error
     fst snd tracker tick files calls session_start metrics
     audio_chunk arrival transcribe chat synthesize send_audio].

Ltac split_cycle_at c s :=
  destruct c as [a arr [u|e1] [r|e2] [au|e3] [[]|e4]];
  destruct s as [t n fs cs].

Ltac count_norm :=
  unfold count_calls; cbn;
  rewrite ?List.filter_app, ?length_app; cbn; try lia.

Lemma process_chunk_ok host c s :
  cycle_ok c = true ->
  let s1 := snd (process_chunk host c s) in
  fst (process_chunk host c s) = Returns tt
  /\ count_calls is_transcribe s1 = count_calls is_transcribe s + 1
  /\ count_calls is_chat s1 = count_calls is_chat s + 1
  /\ count_calls is_synthesize s1 = count_calls is_synthesize s + 1
  /\ count_calls is_send_audio s1 = count_calls is_send_audio s + 1.
Proof.
  split_cycle_at c s; intros H; try discriminate H.
  run_py. repeat split; count_norm.
Qed.

Lemma process_chunk_failure host c s e :
  provider_failure c = Some e ->
  let s1 := snd (process_chunk host c s) in
  fst (process_chunk host c s) = Raises e
  /\ count_calls is_transcribe s1 = count_calls is_transcribe s + 1
  /\ count_calls is_chat s1
     = count_calls is_chat s + Nat.b2n (returns (transcribe c))
  /\ count_calls is_synthesize s1
     = count_calls is_synthesize s
       + Nat.b2n (returns (transcribe c) && returns (chat c))
  /\ count_calls is_send_audio s1 = count_calls is_send_audio s.
Proof.
  split_cycle_at c s; intros H; try discriminate H; injection H as <-;
    run_py; repeat split; count_norm.
Qed.

Lemma process_chunk_stt_bound host c s :
  length (stt_samples (snd (process_chunk host c s))) <= S (length (stt_samples s)).
Proof.
  split_cycle_at c s; unfold stt_samples; run_py; cbn;
    rewrite ?length_app; cbn; lia.
Qed.

Lemma process_chunk_sends host c s user_text response_text audio :
  transcribe c = Returns user_text -> chat c = Returns response_text ->
  synthesize c = Returns audio ->
  In (call_send_audio audio) (calls (snd (process_chunk host c s))).
Proof.
  split_cycle_at c s; intros H1 H2 H3;
    try discriminate H1; try discriminate H2; try discriminate H3;
    injection H3 as ->; run_py; apply in_or_app; right; left; reflexivity.
Qed.



Lemma guarded_loop_run host ctx s :
  providers_fault ctx = None ->
  guarded_loop host ctx s
  = try_except (async_for host (audio_stream ctx) (stream_end ctx))
               (fun _ => record_error) s.
Proof.
  intros H. unfold guarded_loop, try_except, create_providers, or_fault, bind.
  rewrite H. reflexivity.
Qed.

Lemma async_for_cons host c rest stop s :
  async_for host (c :: rest) stop s
  = bind (process_chunk host c) (fun _ => async_for host rest stop) s.
Proof. reflexivity. Qed.

(** A run of cycles that all succeed is passed through. *)
Lemma async_for_ok_prefix host pre rest stop s :
  Forall (fun c => cycle_ok c = true) pre ->
  exists s1,
    async_for host (pre ++ rest) stop s = async_for host rest stop s1
    /\ emits in_loop s s1
    /\ count_calls is_transcribe s1 = count_calls is_transcribe s + length pre
    /\ count_calls is_chat s1 = count_calls is_chat s + length pre
    /\ count_calls is_synthesize s1 = count_calls is_synthesize s + length pre
    /\ count_calls is_send_audio s1 = count_calls is_send_audio s + length pre.
Proof.
  intros Hok. revert s. induction Hok as [|c pre Hc Hpre IH]; intros s.
  - exists s. cbn [app length]. repeat split; try lia. reflexivity.
  - destruct (process_chunk_ok host c s Hc) as (Hr & C1 & C2 & C3 & C4).
    destruct (IH (snd (process_chunk host c s)))
      as (s1 & Hrun & Hem & D1 & D2 & D3 & D4).
    exists s1. cbn [app length]. rewrite async_for_cons, (bind_returns _ _ _ _ Hr).
    repeat split; try lia; [exact Hrun|].
    etransitivity; [apply process_chunk_in_loop|exact Hem].
Qed.

Lemma opening_errors host : steps (same errors_of) (opening host).
Proof. steps_same. Qed.

Lemma async_for_errors host chunks stop :
  steps (same errors_of) (async_for host chunks stop).
Proof. apply async_for_same. intros c. steps_same. Qed.

Lemma teardown_errors host : steps (same errors_of) (teardown host).
Proof. steps_same. Qed.

Lemma teardown_count host (p : Event -> bool) s :
  p call_end_session = false ->
  p (call_save_to_excel default_filename) = false ->
  count_calls p (snd (teardown host s)) = count_calls p s.
Proof.
  intros H1 H2. unfold count_calls.
  rewrite teardown_calls, List.filter_app, length_app. cbn. rewrite H1, H2. cbn. lia.
Qed.

Lemma opening_count host (p : Event -> bool) s :
  (forall id, p (call_start_session id) = false) ->
  count_calls p (snd (opening host s)) = count_calls p s.
Proof.
  intros H. apply (emits_count (fun ev => is_start ev = true)).
  - intros [] E; try discriminate E. apply H.
  - apply opening_starts.
Qed.

(** The session up to the moment a provider call fails in a cycle that
    follows only successful cycles. *)
Lemma failing_cycle host ctx s pre bad post e :
  providers_fault ctx = None ->
  audio_stream ctx = (pre ++ bad :: post)%list ->
  Forall (fun c => cycle_ok c = true) pre ->
  provider_failure bad = Some e ->
  exists s1,
    guarded_loop host ctx s
    = (if is_Exception e then record_error s1 else (Raises e, s1))
    /\ emits in_loop s s1
    /\ errors_of s1 = errors_of s
    /\ count_calls is_transcribe s1 = count_calls is_transcribe s + length pre + 1
    /\ count_calls is_chat s1
       = count_calls is_chat s + length pre + Nat.b2n (returns (transcribe bad))
    /\ count_calls is_synthesize s1
       = count_calls is_synthesize s + length pre
         + Nat.b2n (returns (transcribe bad) && returns (chat bad))
    /\ count_calls is_send_audio s1 = count_calls is_send_audio s + length pre.
Proof.
  intros Hp Hs Hok Hbad.
  destruct (async_for_ok_prefix host pre (bad :: post) (stream_end ctx) s Hok)
    as (s0 & Hrun & Hem & C1 & C2 & C3 & C4).
  destruct (process_chunk_failure host bad s0 e Hbad) as (Hr & D1 & D2 & D3 & D4).
  exists (snd (process_chunk host bad s0)).
  pose proof (async_for_errors host (pre ++ bad :: post) (stream_end ctx) s) as He.
  rewrite Hrun, async_for_cons, (bind_raises _ _ _ _ Hr) in He.
  repeat split; try lia.
  - rewrite (guarded_loop_run _ _ _ Hp), Hs. unfold try_except.
    rewrite Hrun, async_for_cons, (bind_raises _ _ _ _ Hr). reflexivity.
  - etransitivity; [exact Hem|apply process_chunk_in_loop].
  - exact He.
Qed.

(** C3, amended. When a provider call of a cycle raises an error (an
    instance of [Exception]) after cycles that all succeeded, the session
    records exactly one error, makes none of the later calls of that cycle,
    takes up no further segment, and goes on to its teardown: the log ends
    with [record_error], [end_session], [save_to_excel]. *)
Theorem provider_failure_ends_session
    (host : Host) (ctx : JobContext) (s : St)
    (pre : list Cycle) (bad : Cycle) (post : list Cycle) (e : exn) :
  providers_fault ctx = None ->
  audio_stream ctx = (pre ++ bad :: post)%list ->
  Forall (fun c => cycle_ok c = true) pre ->
  provider_failure bad = Some e ->
  is_Exception e = true ->
  let s' := snd (entrypoint host ctx s) in
  errors_of s' = errors_of s + 1
  /\ count_calls is_transcribe s' = count_calls is_transcribe s + length pre + 1
  /\ count_calls is_chat s'
     = count_calls is_chat s + length pre + Nat.b2n (returns (transcribe bad))
  /\ count_calls is_synthesize s'
     = count_calls is_synthesize s + length pre
       + Nat.b2n (returns (transcribe bad) && returns (chat bad))
  /\ count_calls is_send_audio s' = count_calls is_send_audio s + length pre
  /\ exists during,
       calls s'
       = (calls s ++ during
          ++ [call_record_error; call_end_session;
              call_save_to_excel default_filename])%list.
Proof.
  intros Hp Hs Hok Hbad He s'. unfold s'. rewrite entrypoint_state.
  destruct (failing_cycle host ctx (snd (opening host s)) pre bad post e Hp Hs Hok Hbad)
    as (s1 & Hrun & Hem & E1 & C1 & C2 & C3 & C4).
  rewrite Hrun, He.
  rewrite (teardown_errors host), !teardown_count by reflexivity.
  rewrite !opening_count in * by reflexivity.
  rewrite (opening_errors host s) in E1.
  repeat split.
  - change (errors_of (snd (record_error s1))) with (errors_of s1 + 1). lia.
  - change (count_calls is_transcribe (snd (record_error s1)))
      with (length (List.filter is_transcribe (calls s1 ++ [call_record_error]))).
    rewrite List.filter_app, length_app. cbn. fold (count_calls is_transcribe s1). lia.
  - change (count_calls is_chat (snd (record_error s1)))
      with (length (List.filter is_chat (calls s1 ++ [call_record_error]))).
    rewrite List.filter_app, length_app. cbn. fold (count_calls is_chat s1). lia.
  - change (count_calls is_synthesize (snd (record_error s1)))
      with (length (List.filter is_synthesize (calls s1 ++ [call_record_error]))).
    rewrite List.filter_app, length_app. cbn. fold (count_calls is_synthesize s1). lia.
  - change (count_calls is_send_audio (snd (record_error s1)))
      with (length (List.filter is_send_audio (calls s1 ++ [call_record_error]))).
    rewrite List.filter_app, length_app. cbn. fold (count_calls is_send_audio s1). lia.
  - rewrite teardown_calls.
    change (calls (snd (record_error s1))) with (calls s1 ++ [call_record_error])%list.
    destruct (opening_starts host s) as (e1 & H1 & _).
    destruct Hem as (e2 & H2 & _).
    exists (e1 ++ e2)%list. rewrite H2, H1, <- !app_assoc. reflexivity.
Qed.

(** * Interruption *)

Lemma after_bind (R : St -> St -> Prop) `{!PreOrder R} {A B}
    (m : Py A) (k : A -> Py B) (s : St) :
  (forall a, steps R (k a)) -> R (snd (m s)) (snd (bind m k s)).
Proof.
  intros Hk. unfold bind. specialize (fun a => Hk a (snd (m s))).
  destruct (m s) as [[a|e] s1]; cbn [snd] in *; [apply Hk|reflexivity].
Qed.

Lemma after_try_except (R : St -> St -> Prop) `{!PreOrder R} {A}
    (m : Py A) (h : exn -> Py A) (s : St) :
  (forall e, steps R (h e)) -> R (snd (m s)) (snd (try_except m h s)).
Proof.
  intros Hh. unfold try_except. specialize (fun e => Hh e (snd (m s))).
  destruct (m s) as [[a|e] s1]; cbn [snd] in *; [reflexivity|].
  destruct (is_Exception e); cbn [snd]; [apply Hh|reflexivity].
Qed.

Lemma record_error_in_loop : steps (emits in_loop) record_error.
Proof. unfold_methods. steps_struct; emits_leaf. Qed.

Lemma emitted_between (P P' : Event -> Prop) (s0 s1 s2 s3 : St)
    (ev : Event) (evs : list Event) :
  emits P s0 s1 ->
  calls s2 = (calls s1 ++ evs)%list ->
  In ev evs ->
  emits P' s2 s3 ->
  exists all, calls s3 = (calls s0 ++ all)%list /\ In ev all.
Proof.
  intros (e1 & H1 & _) H2 Hin (e3 & H3 & _).
  exists (e1 ++ evs ++ e3)%list. split.
  - rewrite H3, H2, H1, <- !app_assoc. reflexivity.
  - apply in_or_app. right. apply in_or_app. left. exact Hin.
Qed.

Lemma process_chunk_emits_audio host c s user_text response_text audio :
  transcribe c = Returns user_text ->
  chat c = Returns response_text ->
  synthesize c = Returns audio ->
  exists evs,
    calls (snd (process_chunk host c s)) = (calls s ++ evs)%list
    /\ In (call_send_audio audio) evs.
Proof.
  intros H1 H2 H3. split_cycle_at c s;
    try discriminate H1; try discriminate H2; try discriminate H3;
    injection H3 as ->; run_py; rewrite <- !app_assoc;
    (eexists; split; [reflexivity|]); cbn; auto 12.
Qed.

Lemma guarded_loop_emits_audio host ctx s pre a rest user_text response_text audio :
  providers_fault ctx = None ->
  audio_stream ctx = (pre ++ a :: rest)%list ->
  Forall (fun c => cycle_ok c = true) pre ->
  transcribe a = Returns user_text ->
  chat a = Returns response_text ->
  synthesize a = Returns audio ->
  exists evs,
    calls (snd (guarded_loop host ctx s)) = (calls s ++ evs)%list
    /\ In (call_send_audio audio) evs.
Proof.
  intros Hp Hs Hok H1 H2 H3.
  destruct (async_for_ok_prefix host pre (a :: rest) (stream_end ctx) s Hok)
    as (s0 & Hrun & Hem & _).
  destruct (process_chunk_emits_audio host a s0 _ _ _ H1 H2 H3) as (evs & Hc & Hin).
  apply (emitted_between in_loop in_loop s s0 (snd (process_chunk host a s0))
           _ _ evs Hem Hc Hin).
  rewrite (guarded_loop_run _ _ _ Hp), Hs.
  etransitivity;
    [|apply (after_try_except (emits in_loop)); intros _; apply record_error_in_loop].
  rewrite Hrun, async_for_cons.
  apply (after_bind (emits in_loop)). intros _. apply async_for_in_loop.
Qed.

Lemma async_for_stt_bound host chunks stop s :
  length (stt_samples (snd (async_for host chunks stop s)))
  <= length (stt_samples s) + length chunks.
Proof.
  revert s. induction chunks as [|c rest IH]; intros s.
  - destruct stop; cbn; lia.
  - rewrite async_for_cons. unfold bind.
    pose proof (process_chunk_stt_bound host c s) as Hc.
    destruct (process_chunk host c s) as [[u|e] s1]; cbn [snd length] in *.
    + specialize (IH s1). lia.
    + lia.
Qed.

Lemma guarded_loop_stt_bound host ctx s :
  length (stt_samples (snd (guarded_loop host ctx s)))
  <= length (stt_samples s) + length (audio_stream ctx).
Proof.
  unfold guarded_loop, try_except, bind, create_providers, or_fault.
  destruct (providers_fault ctx) as [e|]; cbn.
  - destruct (is_Exception e); unfold stt_samples; cbn; lia.
  - pose proof (async_for_stt_bound host (audio_stream ctx) (stream_end ctx) s) as Hb.
    destruct (async_for host (audio_stream ctx) (stream_end ctx) s) as [[u|e] s1];
      cbn [snd] in *; [exact Hb|].
    destruct (is_Exception e); unfold stt_samples in *; cbn in *; exact Hb.
Qed.

Lemma opening_stt host : steps (same stt_samples) (opening host).
Proof. steps_same. Qed.

Lemma teardown_stt host : steps (same stt_samples) (teardown host).
Proof. steps_same. Qed.

Lemma opening_interruptions host : steps (same interruptions_of) (opening host).
Proof. steps_same. Qed.

Lemma guarded_loop_interruptions host ctx :
  steps (same interruptions_of) (guarded_loop host ctx).
Proof.
  unfold guarded_loop. unfold_methods. steps_struct; try same_leaf.
  apply async_for_same. intros c. steps_same.
Qed.

Lemma teardown_interruptions host : steps (same interruptions_of) (teardown host).
Proof. steps_same. Qed.

Lemma process_chunk_transcribes host c s :
  count_calls is_transcribe (snd (process_chunk host c s))
  = count_calls is_transcribe s + 1.
Proof. split_cycle_at c s; run_py; count_norm. Qed.

Lemma count_calls_since (p : Event -> bool) s s' evs :
  calls s' = (calls s ++ evs)%list ->
  count_calls p s' = count_calls p s + length (List.filter p (calls_since s s')).
Proof.
  intros H. unfold count_calls, calls_since.
  rewrite H, drop_app_length, List.filter_app, length_app. reflexivity.
Qed.

(** The calls of a cycle whose three provider calls return: it ends as
    [send_audio] does, and the audio is sent last, after the one
    transcription of the cycle. *)
Lemma process_chunk_log host c s user_text response_text audio :
  transcribe c = Returns user_text ->
  chat c = Returns response_text ->
  synthesize c = Returns audio ->
  fst (process_chunk host c s) = send_audio c
  /\ exists evs,
       calls (snd (process_chunk host c s))
       = (calls s ++ evs ++ [call_send_audio audio])%list
       /\ List.filter is_transcribe evs = [call_transcribe (audio_chunk c)].
Proof.
  intros H1 H2 H3. split_cycle_at c s;
    try discriminate H1; try discriminate H2; try discriminate H3;
    injection H3 as ->; run_py; (split; [reflexivity|]);
    eexists [_; _; _; _; _; _; _; _]; rewrite <- !app_assoc;
    (split; reflexivity).
Qed.

(** Every cycle starts by calling the transcription of its segment. *)
Lemma process_chunk_first_call host c s :
  exists evs,
    calls (snd (process_chunk host c s))
    = (calls s ++ call_transcribe (audio_chunk c) :: evs)%list.
Proof.
  split_cycle_at c s; run_py; rewrite <- ?app_assoc; eexists; reflexivity.
Qed.

Lemma emitted_count (p : Event -> bool) (s s' : St) (evs : list Event) (n : nat) :
  calls s' = (calls s ++ evs)%list ->
  count_calls p s' = count_calls p s + n ->
  length (List.filter p evs) = n.
Proof.
  unfold count_calls. intros ->. rewrite List.filter_app, length_app. lia.
Qed.

Lemma start_calls_not_transcribe (evs : list Event) :
  Forall (fun ev => is_start ev = true) evs -> List.filter is_transcribe evs = [].
Proof.
  induction 1 as [|ev evs Hev _ IH]; [reflexivity|].
  destruct ev; try discriminate Hev. exact IH.
Qed.

Lemma guarded_loop_next_segment host ctx s pre a b rest
    user_text response_text audio :
  providers_fault ctx = None ->
  audio_stream ctx = (pre ++ a :: b :: rest)%list ->
  Forall (fun c => cycle_ok c = true) pre ->
  transcribe a = Returns user_text ->
  chat a = Returns response_text ->
  synthesize a = Returns audio ->
  send_audio a = Returns tt ->
  exists before after,
    calls (snd (guarded_loop host ctx s))
    = (calls s ++ before ++ call_send_audio audio
                :: call_transcribe (audio_chunk b) :: after)%list
    /\ length (List.filter is_transcribe before) = S (length pre).
Proof.
  intros Hp Hs Hok H1 H2 H3 H4.
  destruct (async_for_ok_prefix host pre (a :: b :: rest) (stream_end ctx) s Hok)
    as (s0 & Hrun & (e2 & He2 & _) & C1 & _).
  pose proof (emitted_count is_transcribe s s0 e2 _ He2 C1) as Hn2.
  destruct (process_chunk_log host a s0 _ _ _ H1 H2 H3) as (Hr & evA & HcA & HfA).
  rewrite H4 in Hr.
  set (s1 := snd (process_chunk host a s0)) in *.
  destruct (process_chunk_first_call host b s1) as (evB & HcB).
  assert (H5 : emits in_loop (snd (async_for host (audio_stream ctx) (stream_end ctx) s))
                 (snd (guarded_loop host ctx s))).
  { rewrite (guarded_loop_run _ _ _ Hp).
    apply (after_try_except (emits in_loop)). intros _. apply record_error_in_loop. }
  destruct H5 as (e5 & H5 & _).
  assert (H4' : emits in_loop (snd (process_chunk host b s1))
                  (snd (async_for host (audio_stream ctx) (stream_end ctx) s))).
  { rewrite Hs, Hrun, async_for_cons, (bind_returns _ _ _ _ Hr). fold s1.
    rewrite async_for_cons.
    apply (after_bind (emits in_loop)). intros _. apply async_for_in_loop. }
  destruct H4' as (e4 & He4 & _).
  exists (e2 ++ evA)%list, (evB ++ e4 ++ e5)%list. split.
  - rewrite H5, He4, HcB, HcA, He2, <- !app_assoc. reflexivity.
  - rewrite List.filter_app, length_app, Hn2, HfA. cbn. lia.
Qed.

Lemma guarded_loop_send_failure host ctx s pre a rest
    user_text response_text audio e :
  providers_fault ctx = None ->
  audio_stream ctx = (pre ++ a :: rest)%list ->
  Forall (fun c => cycle_ok c = true) pre ->
  transcribe a = Returns user_text ->
  chat a = Returns response_text ->
  synthesize a = Returns audio ->
  send_audio a = Raises e ->
  count_calls is_transcribe (snd (guarded_loop host ctx s))
  = count_calls is_transcribe s + length pre + 1.
Proof.
  intros Hp Hs Hok H1 H2 H3 H4.
  destruct (async_for_ok_prefix host pre (a :: rest) (stream_end ctx) s Hok)
    as (s0 & Hrun & _ & C1 & _).
  destruct (process_chunk_log host a s0 _ _ _ H1 H2 H3) as (Hr & _).
  rewrite H4 in Hr.
  pose proof (process_chunk_transcribes host a s0) as Ht.
  rewrite (guarded_loop_run _ _ _ Hp), Hs. unfold try_except.
  rewrite Hrun, async_for_cons, (bind_raises _ _ _ _ Hr).
  destruct (is_Exception e); cbn [snd].
  - change (count_calls is_transcribe (snd (record_error (snd (process_chunk host a s0)))))
      with (length (List.filter is_transcribe
                      (calls (snd (process_chunk host a s0)) ++ [call_record_error]))).
    rewrite List.filter_app, length_app. cbn [List.filter is_transcribe length].
    fold (count_calls is_transcribe (snd (process_chunk host a s0))). lia.
  - lia.
Qed.

(** C6, amended. The loop takes the next segment only when the cycle of the
    previous one is over, so a segment arriving during a cycle changes
    nothing: the session never calls [record_interruption] and leaves the
    interruption count as it found it; a cycle adds at most one STT sample
    and a session at most one per segment; and the audio synthesized for a
    segment that follows only successful cycles is sent, whatever the
    arrival time of the segments after it. When sending it returns, the
    transcription of the next segment is the very next call, and only the
    segments up to this one were transcribed before; when sending it raises,
    the session ends and the next segment is never transcribed. *)
Theorem no_interruption_handling (host : Host) (ctx : JobContext) (s : St) :
  let s' := snd (entrypoint host ctx s) in
  interruptions_of s' = interruptions_of s
  /\ Forall (fun ev => ev <> call_record_interruption) (calls_since s s')
  /\ (forall c s0,
         length (stt_samples (snd (process_chunk host c s0)))
         <= S (length (stt_samples s0)))
  /\ length (stt_samples s') <= length (stt_samples s) + length (audio_stream ctx)
  /\ (forall pre a rest user_text response_text audio,
         providers_fault ctx = None ->
         audio_stream ctx = (pre ++ a :: rest)%list ->
         Forall (fun c => cycle_ok c = true) pre ->
         transcribe a = Returns user_text ->
         chat a = Returns response_text ->
         synthesize a = Returns audio ->
         In (call_send_audio audio) (calls_since s s'))
  /\ (forall pre a b rest user_text response_text audio,
         providers_fault ctx = None ->
         audio_stream ctx = (pre ++ a :: b :: rest)%list ->
         Forall (fun c => cycle_ok c = true) pre ->
         transcribe a = Returns user_text ->
         chat a = Returns response_text ->
         synthesize a = Returns audio ->
         match send_audio a with
         | Returns _ =>
             exists before after,
               calls_since s s'
               = (before ++ call_send_audio audio
                         :: call_transcribe (audio_chunk b) :: after)%list
               /\ length (List.filter is_transcribe before) = S (length pre)
         | Raises _ =>
             length (List.filter is_transcribe (calls_since s s')) = S (length pre)
         end).
Proof.
  intros s'. unfold s'.
  split; [|split; [|split; [|split; [|split]]]].
  - rewrite entrypoint_state, (teardown_interruptions host),
      (guarded_loop_interruptions host ctx). apply opening_interruptions.
  - destruct (entrypoint_calls host ctx s) as (during & H & F).
    unfold calls_since. rewrite H, drop_app_length. apply Forall_app. split.
    + eapply Forall_impl; [exact F|]. intros ev [_ Hi] ->. discriminate Hi.
    + repeat constructor; discriminate.
  - apply process_chunk_stt_bound.
  - rewrite entrypoint_state, (teardown_stt host).
    etransitivity; [apply guarded_loop_stt_bound|].
    rewrite (opening_stt host s). reflexivity.
  - intros pre a rest user_text response_text audio Hp Hs Hok H1 H2 H3.
    destruct (guarded_loop_emits_audio host ctx (snd (opening host s))
                pre a rest _ _ _ Hp Hs Hok H1 H2 H3) as (evs & Hc & Hin).
    destruct (opening_starts host s) as (e1 & Ho & _).
    unfold calls_since.
    rewrite entrypoint_state, teardown_calls, Hc, Ho, <- !app_assoc, drop_app_length.
    apply in_or_app. right. apply in_or_app. left. exact Hin.
  - intros pre a b rest user_text response_text audio Hp Hs Hok H1 H2 H3.
    destruct (opening_starts host s) as (e1 & Ho & F1).
    destruct (send_audio a) as [[]|e] eqn:H4.
    + destruct (guarded_loop_next_segment host ctx (snd (opening host s))
                  pre a b rest _ _ _ Hp Hs Hok H1 H2 H3 H4)
        as (before & after & Hc & Hn).
      exists (e1 ++ before)%list,
             (after ++ [call_end_session; call_save_to_excel default_filename])%list.
      split.
      * unfold calls_since.
        rewrite entrypoint_state, teardown_calls, Hc, Ho, <- !app_assoc,
          drop_app_length.
        cbn [app]. reflexivity.
      * rewrite List.filter_app, length_app, (start_calls_not_transcribe _ F1), Hn.
        reflexivity.
    + destruct (entrypoint_calls host ctx s) as (during & Hcalls & _).
      pose proof (count_calls_since is_transcribe s _ _ Hcalls) as Hsince.
      rewrite entrypoint_state, teardown_count in Hsince by reflexivity.
      rewrite (guarded_loop_send_failure host ctx _ pre a (b :: rest) _ _ _ e
                 Hp Hs Hok H1 H2 H3 H4) in Hsince.
      rewrite opening_count in Hsince by reflexivity.
      rewrite <- entrypoint_state in Hsince. lia.
Qed.

(** * Scenarios *)


(** C3, as stated, fails: when the STT call fails on the first of two
    segments, one error is recorded and the session is torn down; the second
    segment is never transcribed. *)
Lemma first_failure_stops_stream :
  let ctx := stream_of [segment_stt_fails "A" 0; segment "B" 10] in
  let s' := snd (entrypoint sample_host ctx fresh) in
  length (audio_stream ctx) = 2
  /\ errors_of s' = 1
  /\ count_calls is_transcribe s' = 1
  /\ List.filter is_transcribe (calls s') = [call_transcribe "A"]
  /\ ~ degraded_continue.
Proof.
  repeat split. intros H.
  assert (Hexc : forall e,
             provider_failure (segment_stt_fails "A" 0) = Some e ->
             is_Exception e = true).
  { intros e He. injection He as <-. reflexivity. }
  assert (Hpost : Forall (fun c => cycle_ok c = true) [segment "B" 10])
    by (repeat constructor).
  destruct (H sample_host
              (stream_of [segment_stt_fails "A" 0; segment "B" 10]) fresh
              [] (segment_stt_fails "A" 0) [segment "B" 10]
              eq_refl eq_refl eq_refl (List.Forall_nil _) Hpost eq_refl Hexc)
    as (_ & Hc).
  vm_compute in Hc. discriminate Hc.
Qed.

Lemma provider_failure_ends_session_witness :
  let s' := snd (entrypoint sample_host
                   (stream_of [segment_stt_fails "A" 0; segment "B" 10]) fresh) in
  errors_of s' = 1
  /\ count_calls is_transcribe s' = 1
  /\ count_calls is_chat s' = 0.
Proof.
  destruct (provider_failure_ends_session sample_host
              (stream_of [segment_stt_fails "A" 0; segment "B" 10]) fresh
              [] (segment_stt_fails "A" 0) [segment "B" 10]
              (Exception "ProviderError")
              eq_refl eq_refl (List.Forall_nil _) eq_refl eq_refl)
    as (He & Ht & Hc & _).
  repeat split; assumption.
Defined.

(** C6, as stated, fails: segment B reaches the transport while segment A is
    being transcribed (between clock readings 3 and 4), and yet the audio
    synthesized for A is sent and no interruption is recorded. *)
Lemma arrival_during_cycle_unnoticed :
  let ctx := stream_of [segment "A" 0; segment "B" (7 # 2)] in
  let s' := snd (entrypoint sample_host ctx fresh) in
  (time_time sample_host 3 < 7 # 2 /\ 7 # 2 < time_time sample_host 4)%Q
  /\ interruptions_of s' = 0
  /\ List.filter is_send_audio (calls s')
     = [call_send_audio "audio for A"; call_send_audio "audio for B"]
  /\ ~ interruption_restarts_cycle.
Proof.
  repeat split. intros H.
  destruct (H sample_host (stream_of [segment "A" 0; segment "B" (7 # 2)]) fresh
              (segment "A" 0) (segment "B" (7 # 2)) []
              "hello" "hi there" "audio for A"
              eq_refl eq_refl eq_refl eq_refl eq_refl eq_refl eq_refl)
    as (_ & Hi & _).
  vm_compute in Hi. discriminate Hi.
Qed.

Lemma no_interruption_handling_witness :
  let s' := snd (entrypoint sample_host
                   (stream_of [segment "A" 0; segment "B" (7 # 2)]) fresh) in
  let s'' := snd (entrypoint sample_host
                    (stream_of [Views.segment_send_fails "A" 0; segment "B" (7 # 2)])
                    fresh) in
  interruptions_of s' = 0
  /\ In (call_send_audio "audio for A") (calls_since fresh s')
  /\ (exists before after,
         calls_since fresh s'
         = (before ++ call_send_audio "audio for A"
                   :: call_transcribe "B" :: after)%list
         /\ length (List.filter is_transcribe before) = 1)
  /\ length (List.filter is_transcribe (calls_since fresh s'')) = 1.
Proof.
  destruct (no_interruption_handling sample_host
              (stream_of [segment "A" 0; segment "B" (7 # 2)]) fresh)
    as (Hi & _ & _ & _ & Hsend & Hnext).
  destruct (no_interruption_handling sample_host
              (stream_of [Views.segment_send_fails "A" 0; segment "B" (7 # 2)]) fresh)
    as (_ & _ & _ & _ & _ & Hstop).
  split; [exact Hi|]. split; [|split].
  - apply (Hsend [] (segment "A" 0) [segment "B" (7 # 2)]
             "hello" "hi there" "audio for A");
      try reflexivity.
    constructor.
  - exact (Hnext [] (segment "A" 0) (segment "B" (7 # 2)) []
             "hello" "hi there" "audio for A"
             eq_refl eq_refl (List.Forall_nil _) eq_refl eq_refl eq_refl).
  - exact (Hstop [] (Views.segment_send_fails "A" 0) (segment "B" (7 # 2)) []
             "hello" "hi there" "audio for A"
             eq_refl eq_refl (List.Forall_nil _) eq_refl eq_refl eq_refl).
Defined.

Import Views.

(** * Further properties of config.py *)

(** Reduces a statement about a configuration to the truth values of its
    seven credentials and of the latency warning. *)
Ltac by_credentials cls :=
  destruct cls as [url lk ls dg oa gq el ca tl];
  unfold missing_stages, Config.stages in *;
  unfold Config.has_provider, Config.stage_keys, Config.transport_credentials,
    Config.validate_config, Config.get_service_priority, Config.append_if,
    provider_table, enabled, normalize, with_target, drop_empty in *;
  cbn [existsb String.eqb Ascii.eqb Bool.eqb map List.filter fst snd length
       Config.LIVEKIT_API_KEY Config.LIVEKIT_API_SECRET Config.DEEPGRAM_API_KEY
       Config.OPENAI_API_KEY Config.GROQ_API_KEY Config.ELEVENLABS_API_KEY
       Config.CARTESIA_API_KEY Config.TARGET_LATENCY] in *.

(** X1. Each priority list returned by [get_service_priority] is the fixed
    provider order of its stage (deepgram, openai; groq, openai; elevenlabs,
    cartesia, openai) restricted to the providers whose credential is set,
    and it names no provider twice. *)
Theorem service_priority_table (cls : Config.Config) :
  Config.get_service_priority cls
  = map (fun r => (fst r, enabled (snd r))) (provider_table cls)
  /\ Forall (fun r => NoDup (snd r)) (Config.get_service_priority cls).
Proof.
  by_credentials cls. split.
  - destruct (truthy_str dg), (truthy_str oa), (truthy_str gq),
      (truthy_str el), (truthy_str ca); reflexivity.
  - destruct (truthy_str dg), (truthy_str oa), (truthy_str gq),
      (truthy_str el), (truthy_str ca); cbn;
      repeat constructor; cbn; rewrite ?elem_of_cons, ?elem_of_nil; intuition discriminate.
Qed.

Ltac case_credentials :=
  match goal with
  | lk : option string, ls : option string, dg : option string,
    oa : option string, gq : option string, el : option string,
    ca : option string |- _ =>
      generalize (truthy_str lk); generalize (truthy_str ls);
      generalize (truthy_str dg); generalize (truthy_str oa);
      generalize (truthy_str gq); generalize (truthy_str el);
      generalize (truthy_str ca)
  end.

(** X2. [validate_config] reports [valid] exactly when it reports no error,
    and the number of errors is one for missing LiveKit credentials plus one
    per stage without a provider. *)
Theorem valid_iff_no_errors (cls : Config.Config) :
  (Config.valid (Config.validate_config cls) = true
   <-> Config.errors (Config.validate_config cls) = [])
  /\ length (Config.errors (Config.validate_config cls))
     = Nat.b2n (negb (Config.transport_credentials cls)) + missing_stages cls.
Proof.
  by_credentials cls. case_credentials.
  intros [] [] [] [] [] [] []; destruct (float_gt tl (Finite 3)); cbn;
    (split; [split; intros H; first [reflexivity | discriminate H]|reflexivity]).
Qed.

Lemma warnings_formula (cls : Config.Config) :
  Config.warnings (Config.validate_config cls)
  = if float_gt (Config.TARGET_LATENCY cls) (Finite 3)
    then ["Target latency > 3s may impact user experience"] else [].
Proof.
  by_credentials cls. case_credentials.
  intros [] [] [] [] [] [] []; destruct (float_gt tl (Finite 3)); reflexivity.
Qed.

(** X3. [validate_config] warns exactly when [TARGET_LATENCY > 3.0] holds
    as a comparison of floats: a finite target warns exactly when it is
    above 3 (a target of exactly 3 does not warn), a NaN and minus infinity
    do not warn, plus infinity does. The target latency has no influence on
    [valid], [errors] or [available_services]. *)
Theorem latency_warning_only_warns (cls : Config.Config) :
  (Config.warnings (Config.validate_config cls) <> []
   <-> float_gt (Config.TARGET_LATENCY cls) (Finite 3) = true)
  /\ (forall q : Q,
        Config.warnings (Config.validate_config (with_target (Finite q) cls)) = []
        <-> (q <= 3)%Q)
  /\ Config.warnings (Config.validate_config (with_target NaN cls)) = []
  /\ Config.warnings (Config.validate_config (with_target (Infinity true) cls)) = []
  /\ Config.warnings (Config.validate_config (with_target (Infinity false) cls))
     <> []
  /\ forall target,
       let st := Config.validate_config cls in
       let st' := Config.validate_config (with_target target cls) in
       Config.valid st' = Config.valid st
       /\ Config.errors st' = Config.errors st
       /\ Config.available_services st' = Config.available_services st.
Proof.
  rewrite !warnings_formula. cbn [with_target Config.TARGET_LATENCY].
  split; [|split; [|split; [|split; [|split]]]].
  - destruct (float_gt (Config.TARGET_LATENCY cls) (Finite 3)); split; intros H;
      first [reflexivity | discriminate H | contradiction | discriminate].
  - intros q. rewrite warnings_formula. cbn [with_target Config.TARGET_LATENCY].
    unfold float_gt, float_lt.
    pose proof (Qltb_ge 3 q) as Hge. pose proof (Qltb_lt 3 q) as Hlt.
    destruct (Qltb 3 q); split; intros H.
    + discriminate H.
    + exfalso. apply (Qlt_not_le 3 q); [apply Hlt; reflexivity|exact H].
    + apply Hge. reflexivity.
    + reflexivity.
  - reflexivity.
  - reflexivity.
  - discriminate.
  - intros target. destruct cls as [url lk ls dg oa gq el ca tl].
    unfold Config.validate_config, Config.get_service_priority, with_target.
    cbn [Config.LIVEKIT_API_KEY Config.LIVEKIT_API_SECRET
         Config.DEEPGRAM_API_KEY Config.OPENAI_API_KEY Config.GROQ_API_KEY
         Config.ELEVENLABS_API_KEY Config.CARTESIA_API_KEY
         Config.TARGET_LATENCY].
    destruct (float_gt tl (Finite 3)), (float_gt target (Finite 3)); repeat split.
Qed.

Lemma available_services_eq (cls : Config.Config) :
  Config.available_services (Config.validate_config cls)
  = Config.get_service_priority cls.
Proof.
  by_credentials cls. case_credentials.
  intros [] [] [] [] [] [] []; destruct (float_gt tl (Finite 3)); reflexivity.
Qed.

(** X4. Valid or not, the [available_services] of the status are the lists of
    [get_service_priority], stage by stage. *)
Theorem available_services_are_priorities (cls : Config.Config) :
  Config.available_services (Config.validate_config cls)
  = Config.get_service_priority cls
  /\ forall stage,
       Config.services_of (Config.validate_config cls) stage
       = snd <$> List.find (fun kv => String.eqb (fst kv) stage)
                           (Config.get_service_priority cls).
Proof.
  split; [apply available_services_eq|].
  intros stage. unfold Config.services_of. rewrite available_services_eq.
  reflexivity.
Qed.

Lemma truthy_drop_empty (v : option string) :
  truthy_str (drop_empty v) = truthy_str v.
Proof. unfold drop_empty. destruct (truthy_str v) eqn:E; [exact E|reflexivity]. Qed.

(** X5. A credential set to the empty string counts as not set: replacing
    every empty credential by a missing one changes neither the validation
    status nor the priority lists. *)
Theorem empty_credential_is_unset (cls : Config.Config) :
  Config.validate_config (normalize cls) = Config.validate_config cls
  /\ Config.get_service_priority (normalize cls)
     = Config.get_service_priority cls.
Proof.
  destruct cls as [url lk ls dg oa gq el ca tl].
  unfold Config.validate_config, Config.get_service_priority, Config.append_if,
    normalize.
  cbn [Config.LIVEKIT_API_KEY Config.LIVEKIT_API_SECRET Config.DEEPGRAM_API_KEY
       Config.OPENAI_API_KEY Config.GROQ_API_KEY Config.ELEVENLABS_API_KEY
       Config.CARTESIA_API_KEY Config.TARGET_LATENCY].
  rewrite !truthy_drop_empty. split; reflexivity.
Qed.

(** X6. With the LiveKit key and secret set, an OpenAI key alone makes the
    configuration valid, and "openai" is the last (lowest-priority) provider
    of every stage. *)
Theorem openai_key_suffices (cls : Config.Config) :
  Config.transport_credentials cls = true ->
  truthy_str (Config.OPENAI_API_KEY cls) = true ->
  Config.valid (Config.validate_config cls) = true
  /\ forall stage,
       In stage Config.stages ->
       exists providers,
         Config.services_of (Config.validate_config cls) stage = Some providers
         /\ last providers = Some "openai".
Proof.
  intros Ht Ho. split.
  - revert Ht Ho. by_credentials cls. case_credentials.
    intros [] [] [] [] [] [] [] Ht Ho; try discriminate Ht; try discriminate Ho;
      destruct (float_gt tl (Finite 3)); reflexivity.
  - intros stage [<-|[<-|[<-|[]]]]; revert Ht Ho; by_credentials cls; case_credentials;
      intros [] [] [] [] [] [] [] Ht Ho; try discriminate Ht; try discriminate Ho;
      destruct (float_gt tl (Finite 3)); (eexists; split; [reflexivity|reflexivity]).
Qed.

Lemma openai_key_suffices_witness :
  Config.valid (Config.validate_config openai_only) = true
  /\ Config.services_of (Config.validate_config openai_only) "tts"
     = Some ["openai"].
Proof.
  destruct (openai_key_suffices openai_only eq_refl eq_refl) as [Hv _].
  split; [exact Hv|reflexivity].
Defined.

(** * Further properties of the startup report and provider choice *)

Lemma valid_has_providers (cls : Config.Config) :
  Config.valid (Config.validate_config cls) = true ->
  Forall (fun item => snd item <> []) (Config.get_service_priority cls).
Proof.
  by_credentials cls. case_credentials.
  intros [] [] [] [] [] [] []; destruct (float_gt tl (Finite 3)); cbn; intros H;
    try discriminate H; repeat constructor; discriminate.
Qed.

Lemma invalid_has_errors (cls : Config.Config) :
  Config.valid (Config.validate_config cls) = false ->
  Config.errors (Config.validate_config cls) <> [].
Proof.
  by_credentials cls. case_credentials.
  intros [] [] [] [] [] [] []; destruct (float_gt tl (Finite 3)); cbn; intros H;
    try discriminate H; discriminate.
Qed.

Lemma service_lines (items : list (string * list string)) :
  Forall (fun item => snd item <> []) items ->
  map (fun item =>
         "   " +:+ upper (fst item) +:+ ": "
         +:+ (if truthy_list (snd item) then join ", " (snd item) else "None"))
      items
  = map service_line items.
Proof.
  intros H. induction H as [|[stage providers] items Hne _ IH]; [reflexivity|].
  cbn [map]. rewrite IH. f_equal. unfold service_line. cbn [fst snd] in *.
  destruct providers; [contradiction|reflexivity].
Qed.

(** X7. The report printed when [config] is imported: for a valid
    configuration, the warning lines (if any), the success line and one line
    per stage listing at least one provider (the "None" placeholder is never
    printed); for an invalid one, the issues header, one line per error (at
    least one) and the warning lines, and no service list. *)
Theorem startup_report_shape (cls : Config.Config) :
  let st := Config.validate_config cls in
  let warned :=
    if float_gt (Config.TARGET_LATENCY cls) (Finite 3)
    then ["⚠️  Configuration Warnings:";
          "   ⚠️  Target latency > 3s may impact user experience"]
    else [] in
  (Config.valid st = true ->
   startup_report st
   = (warned ++ "✅ Configuration validated successfully"
             :: "📊 Available services:"
             :: map service_line (Config.get_service_priority cls))%list
   /\ Forall (fun item => snd item <> []) (Config.get_service_priority cls))
  /\ (Config.valid st = false ->
      startup_report st
      = ("⚠️  Configuration Issues Found:"
         :: map (fun error => "   ❌ " +:+ error) (Config.errors st)
         ++ warned)%list
      /\ Config.errors st <> []).
Proof.
  intros st warned.
  assert (Hw : (if truthy_list (Config.warnings st)
                then "⚠️  Configuration Warnings:"
                     :: map (fun warning => "   ⚠️  " +:+ warning)
                            (Config.warnings st)
                else []) = warned).
  { unfold st, warned. rewrite warnings_formula.
    destruct (float_gt (Config.TARGET_LATENCY cls) (Finite 3)); reflexivity. }
  split; intros H.
  - pose proof (valid_has_providers cls H) as Hne. split; [|exact Hne].
    unfold startup_report. rewrite Hw, H. cbn [negb app].
    unfold st. rewrite available_services_eq, (service_lines _ Hne). reflexivity.
  - split; [|exact (invalid_has_errors cls H)].
    unfold startup_report. rewrite Hw, H. cbn [negb]. rewrite app_nil_r. reflexivity.
Qed.

Lemma startup_report_shape_witness :
  startup_report (Config.validate_config openai_only)
  = ["✅ Configuration validated successfully"; "📊 Available services:";
     "   STT: openai"; "   LLM: openai"; "   TTS: openai"]
  /\ startup_report (Config.validate_config config_without_llm)
     = ["⚠️  Configuration Issues Found:"; "   ❌ No LLM service configured"].
Proof.
  split.
  - apply (proj1 (startup_report_shape openai_only)). reflexivity.
  - apply (proj2 (startup_report_shape config_without_llm)). reflexivity.
Defined.

(** X8. The providers that [entrypoint] builds agree with the configuration
    module read from the same environment: for each stage it takes the first
    entry of the stage's priority list, and "openai" when the list is empty;
    building them leaves the state as it is. *)
Theorem create_providers_follows_priority
    (host : Host) (float : string -> pyfloat) (ctx : JobContext) (s : St) :
  let st := Config.validate_config (Config.load (getenv host) float) in
  snd (create_providers host ctx s) = s
  /\ match fst (create_providers host ctx s) with
     | Returns p =>
         providers_fault ctx = None
         /\ stt p = first_or_openai (Config.services_of st "stt")
         /\ llm_service p = first_or_openai (Config.services_of st "llm")
         /\ tts p = first_or_openai (Config.services_of st "tts")
     | Raises e => providers_fault ctx = Some e
     end.
Proof.
  intros st. unfold st, Config.services_of. rewrite available_services_eq.
  unfold create_providers, or_fault, Config.load, Config.get_service_priority,
    Config.append_if.
  cbn [Config.DEEPGRAM_API_KEY Config.OPENAI_API_KEY Config.GROQ_API_KEY
       Config.ELEVENLABS_API_KEY Config.CARTESIA_API_KEY].
  destruct (providers_fault ctx) as [e|]; [split; reflexivity|].
  destruct (truthy_str (getenv host "DEEPGRAM_API_KEY")),
    (truthy_str (getenv host "OPENAI_API_KEY")),
    (truthy_str (getenv host "GROQ_API_KEY")),
    (truthy_str (getenv host "ELEVENLABS_API_KEY")),
    (truthy_str (getenv host "CARTESIA_API_KEY")); repeat split.
Qed.

(** * Further properties of the cycle and of the session *)

Lemma process_chunk_outcome host c s :
  fst (process_chunk host c s)
  = match cycle_raises c with
    | Some e => Raises e
    | None => Returns tt
    end.
Proof. split_cycle_at c s; reflexivity. Qed.

Lemma process_chunk_tally host c s :
  tally (snd (process_chunk host c s)) = cycle_tally c (tally s).
Proof.
  split_cycle_at c s; destruct t as [start m]; run_py;
    unfold tally, cycle_tally; cbn; rewrite ?length_app; cbn; f_equal; lia.
Qed.

(** X9. One cycle of the loop ends with the exception of its first awaited
    call that raises, and what it adds to the counters and samples depends on
    the three provider calls only: a user message and an STT sample once
    transcription returned, a TTFT sample once the LLM returned, a TTFD sample
    and an agent response once synthesis returned, also when [send_audio]
    then fails. *)
Theorem cycle_accounting (host : Host) (c : Cycle) (s : St) :
  fst (process_chunk host c s)
  = match cycle_raises c with
    | Some e => Raises e
    | None => Returns tt
    end
  /\ tally (snd (process_chunk host c s)) = cycle_tally c (tally s).
Proof. split; [apply process_chunk_outcome|apply process_chunk_tally]. Qed.

Lemma entrypoint_outcome host ctx s :
  let s1 := snd (opening host s) in
  let s2 := snd (guarded_loop host ctx s1) in
  fst (entrypoint host ctx s)
  = match fst (teardown host s2) with
    | Returns _ => fst (guarded_loop host ctx s1)
    | Raises e => Raises e
    end.
Proof.
  intros s1 s2. unfold entrypoint, try_finally.
  change (fst (let '(r, s') := guarded_loop host ctx s1 in
               match teardown host s' with
               | (Returns _, s'') => (r, s'')
               | (Raises e, s'') => (Raises e, s'')
               end)
          = match fst (teardown host s2) with
            | Returns _ => fst (guarded_loop host ctx s1)
            | Raises e => Raises e
            end).
  unfold s2. destruct (guarded_loop host ctx s1) as [r s']. cbn [snd fst].
  destruct (teardown host s') as [[u|e] s'']; reflexivity.
Qed.

Lemma teardown_returns host s :
  ordinary_faults host -> fst (teardown host s) = Returns tt.
Proof.
  intros H. unfold teardown.
  rewrite (bind_returns _ _ _ _ (end_session_returns host s)).
  apply save_to_excel_returns. exact H.
Qed.

Lemma process_chunk_raises_in host c s e :
  fst (process_chunk host c s) = Raises e -> In e (cycle_exceptions c).
Proof.
  rewrite process_chunk_outcome.
  destruct c as [a arr [u|e1] [r|e2] [au|e3] [[]|e4]]; cbn;
    intros H; try discriminate H; injection H as <-; auto.
Qed.

Lemma async_for_raises_in host chunks stop s e :
  fst (async_for host chunks stop s) = Raises e ->
  In e (concat (map cycle_exceptions chunks)
        ++ match stop with stream_raises e' => [e'] | end_of_stream => [] end)%list.
Proof.
  revert s. induction chunks as [|c rest IH]; intros s.
  - destruct stop; cbn; intros H; [discriminate H|]. injection H as <-. auto.
  - rewrite async_for_cons. unfold bind.
    pose proof (process_chunk_raises_in host c s) as Hc.
    destruct (process_chunk host c s) as [[u|e'] s1]; cbn [fst snd] in *.
    + intros H. cbn [map concat]. rewrite <- app_assoc.
      apply in_or_app. right. exact (IH s1 H).
    + intros H. injection H as <-. cbn [map concat]. rewrite <- app_assoc.
      apply in_or_app. left. apply Hc. reflexivity.
Qed.

Lemma guarded_loop_raises_in host ctx s e :
  fst (guarded_loop host ctx s) = Raises e ->
  In e (script_exceptions ctx) /\ is_Exception e = false.
Proof.
  unfold guarded_loop, try_except, bind, create_providers, or_fault,
    script_exceptions.
  destruct (providers_fault ctx) as [e0|]; cbn.
  - destruct (is_Exception e0) eqn:E; cbn; intros H; [discriminate H|].
    injection H as <-. auto.
  - pose proof (async_for_raises_in host (audio_stream ctx) (stream_end ctx) s) as Hin.
    destruct (async_for host (audio_stream ctx) (stream_end ctx) s) as [[u|e'] s1];
      cbn [fst snd] in *; [intros H; discriminate H|].
    destruct (is_Exception e') eqn:E; cbn; intros H; [discriminate H|].
    injection H as <-. split; [apply Hin; reflexivity|exact E].
Qed.

(** X10. [entrypoint] returns normally when every exception of the script is
    an instance of [Exception] and the spreadsheet library fails with such
    exceptions only. *)
Theorem entrypoint_contains_errors (host : Host) (ctx : JobContext) (s : St) :
  ordinary_faults host ->
  Forall (fun e => is_Exception e = true) (script_exceptions ctx) ->
  fst (entrypoint host ctx s) = Returns tt.
Proof.
  intros Hh Hs. rewrite entrypoint_outcome, (teardown_returns _ _ Hh).
  pose proof (guarded_loop_raises_in host ctx (snd (opening host s))) as Hr.
  destruct (fst (guarded_loop host ctx (snd (opening host s)))) as [[]|e];
    [reflexivity|].
  destruct (Hr e eq_refl) as [Hin Hb].
  rewrite Forall_forall in Hs. rewrite (Hs e) in Hb; [discriminate Hb|].
  apply list_elem_of_In. exact Hin.
Qed.

Lemma cycle_ok_raises c : cycle_ok c = true -> cycle_raises c = None.
Proof.
  destruct c as [a arr [u|e1] [r|e2] [au|e3] [[]|e4]]; intros H;
    try discriminate H; reflexivity.
Qed.

Lemma cycle_ok_tally c t : cycle_ok c = true -> cycle_tally c t = tally_after 1 t.
Proof.
  destruct c as [a arr [u|e1] [r|e2] [au|e3] [[]|e4]]; intros H;
    try discriminate H; reflexivity.
Qed.

Lemma tally_after_add n k t :
  tally_after n (tally_after k t) = tally_after (k + n) t.
Proof. unfold tally_after; cbn; f_equal; lia. Qed.

Lemma tally_after_0 t : tally_after 0 t = t.
Proof. destruct t; unfold tally_after; cbn; f_equal; lia. Qed.

(** A run of cycles that all succeed: outcome, continuation and tally. *)
Lemma ok_run host pre s :
  Forall (fun c => cycle_ok c = true) pre ->
  let s1 := snd (async_for host pre end_of_stream s) in
  fst (async_for host pre end_of_stream s) = Returns tt
  /\ tally s1 = tally_after (length pre) (tally s)
  /\ count_calls is_transcribe s1 = count_calls is_transcribe s + length pre
  /\ count_calls is_send_audio s1 = count_calls is_send_audio s + length pre
  /\ forall rest stop,
       async_for host (pre ++ rest) stop s = async_for host rest stop s1.
Proof.
  intros Hok. revert s. induction Hok as [|c pre Hc Hpre IH]; intros s.
  - cbn. rewrite tally_after_0. repeat split; lia.
  - destruct (process_chunk_ok host c s Hc) as (Hr & C1 & _ & _ & C4).
    pose proof (process_chunk_tally host c s) as Ht.
    rewrite (cycle_ok_tally _ _ Hc) in Ht.
    destruct (IH (snd (process_chunk host c s))) as (Hf & T & D1 & D4 & Happ).
    cbn zeta. rewrite async_for_cons, (bind_returns _ _ _ _ Hr).
    repeat split.
    + exact Hf.
    + rewrite T, Ht, tally_after_add. reflexivity.
    + rewrite D1, C1. cbn [length]. lia.
    + rewrite D4, C4. cbn [length]. lia.
    + intros rest stop. cbn [app].
      rewrite async_for_cons, (bind_returns _ _ _ _ Hr). apply Happ.
Qed.

Lemma opening_tally host : steps (same tally) (opening host).
Proof. steps_same. Qed.

Lemma teardown_tally host : steps (same tally) (teardown host).
Proof. steps_same. Qed.

Lemma record_error_tally s : tally (snd (record_error s)) = with_error (tally s).
Proof. reflexivity. Qed.

Lemma successful_run host ctx s :
  providers_fault ctx = None ->
  Forall (fun c => cycle_ok c = true) (audio_stream ctx) ->
  stream_end ctx = end_of_stream ->
  let s' := snd (entrypoint host ctx s) in
  tally s' = tally_after (length (audio_stream ctx)) (tally s)
  /\ count_calls is_transcribe s'
     = count_calls is_transcribe s + length (audio_stream ctx)
  /\ count_calls is_send_audio s'
     = count_calls is_send_audio s + length (audio_stream ctx).
Proof.
  intros Hp Hok He s'. unfold s'.
  rewrite entrypoint_state, (teardown_tally host), !teardown_count by reflexivity.
  rewrite (guarded_loop_run _ _ _ Hp), He. unfold try_except.
  destruct (ok_run host (audio_stream ctx) (snd (opening host s)) Hok)
    as (Hf & T & C1 & C4 & _).
  destruct (async_for host (audio_stream ctx) end_of_stream (snd (opening host s)))
    as [[u|e] s1]; cbn [fst snd] in *; [|discriminate Hf].
  rewrite T, C1, C4, (opening_tally host s), !opening_count by reflexivity.
  repeat split.
Qed.

(** X11. A session whose [n] cycles all succeed and whose stream ends normally
    adds [n] user messages, [n] agent responses and [n] samples to each of
    the three stage timings, records no error, no interruption and no total
    latency, and makes [n] transcription and [n] send calls. *)
Theorem successful_session (host : Host) (ctx : JobContext) (s : St) :
  providers_fault ctx = None ->
  Forall (fun c => cycle_ok c = true) (audio_stream ctx) ->
  stream_end ctx = end_of_stream ->
  let s' := snd (entrypoint host ctx s) in
  tally s' = tally_after (length (audio_stream ctx)) (tally s)
  /\ count_calls is_transcribe s'
     = count_calls is_transcribe s + length (audio_stream ctx)
  /\ count_calls is_send_audio s'
     = count_calls is_send_audio s + length (audio_stream ctx).
Proof. apply successful_run. Qed.

(** X12. An exception that is not an instance of [Exception] (a cancellation)
    raised by the stream after successful cycles is propagated by
    [entrypoint] after the teardown and is not counted as an error. *)
Theorem cancellation_propagates (host : Host) (ctx : JobContext) (s : St) (e : exn) :
  ordinary_faults host ->
  providers_fault ctx = None ->
  Forall (fun c => cycle_ok c = true) (audio_stream ctx) ->
  stream_end ctx = stream_raises e ->
  is_Exception e = false ->
  let s' := snd (entrypoint host ctx s) in
  fst (entrypoint host ctx s) = Raises e
  /\ tally s' = tally_after (length (audio_stream ctx)) (tally s).
Proof.
  intros Hh Hp Hok He Hb s'. unfold s'.
  rewrite entrypoint_outcome, (teardown_returns _ _ Hh).
  rewrite entrypoint_state, (teardown_tally host).
  rewrite (guarded_loop_run _ _ _ Hp), He. unfold try_except.
  destruct (ok_run host (audio_stream ctx) (snd (opening host s)) Hok)
    as (_ & T & _ & _ & Happ).
  specialize (Happ [] (stream_raises e)). rewrite app_nil_r in Happ.
  rewrite Happ.
  set (s1 := snd (async_for host (audio_stream ctx) end_of_stream
                    (snd (opening host s)))) in *.
  cbn [async_for raise fst snd]. rewrite Hb. cbn [fst snd].
  rewrite T, (opening_tally host s). split; reflexivity.
Qed.

(** X13. When an awaited call of a cycle (a provider call or [send_audio])
    raises an instance of [Exception] after cycles that all succeeded, the
    session ends there: its counters are those of the successful cycles plus
    what the failing cycle added before it raised, plus one error, and no
    later segment is transcribed. *)
Theorem raising_cycle_ends_session
    (host : Host) (ctx : JobContext) (s : St)
    (pre : list Cycle) (bad : Cycle) (post : list Cycle) (e : exn) :
  providers_fault ctx = None ->
  audio_stream ctx = (pre ++ bad :: post)%list ->
  Forall (fun c => cycle_ok c = true) pre ->
  cycle_raises bad = Some e ->
  is_Exception e = true ->
  let s' := snd (entrypoint host ctx s) in
  tally s' = with_error (cycle_tally bad (tally_after (length pre) (tally s)))
  /\ count_calls is_transcribe s'
     = count_calls is_transcribe s + length pre + 1.
Proof.
  intros Hp Hs Hok Hbad He s'. unfold s'.
  rewrite entrypoint_state, (teardown_tally host), teardown_count by reflexivity.
  rewrite (guarded_loop_run _ _ _ Hp), Hs. unfold try_except.
  destruct (ok_run host pre (snd (opening host s)) Hok) as (_ & T & C1 & _ & Happ).
  rewrite Happ, async_for_cons.
  set (s1 := snd (async_for host pre end_of_stream (snd (opening host s)))) in *.
  pose proof (process_chunk_outcome host bad s1) as Hr. rewrite Hbad in Hr.
  rewrite (bind_raises _ _ _ _ Hr), He.
  rewrite record_error_tally, process_chunk_tally, T, (opening_tally host s).
  split; [reflexivity|].
  pose proof (process_chunk_transcribes host bad s1) as Hc.
  change (count_calls is_transcribe (snd (record_error (snd (process_chunk host bad s1)))))
    with (length (List.filter is_transcribe
                    (calls (snd (process_chunk host bad s1)) ++ [call_record_error]))).
  rewrite List.filter_app, length_app. cbn [List.filter is_transcribe length].
  fold (count_calls is_transcribe (snd (process_chunk host bad s1))).
  rewrite Hc, C1, opening_count by reflexivity. lia.
Qed.

(** ** The error counter *)

Lemma loop_body_no_record_error host ctx :
  steps (emits (fun ev => is_record_error ev = false))
        (bind (create_providers host ctx)
              (fun _ => async_for host (audio_stream ctx) (stream_end ctx))).
Proof.
  unfold create_providers. steps_struct.
  apply steps_async_for; [apply _|]. intros c.
  unfold process_chunk. unfold_methods. steps_struct; emits_leaf.
Qed.

Lemma loop_body_errors host ctx :
  steps (same errors_of)
        (bind (create_providers host ctx)
              (fun _ => async_for host (audio_stream ctx) (stream_end ctx))).
Proof.
  unfold create_providers. steps_struct. apply async_for_errors.
Qed.

Lemma guarded_loop_error_calls host ctx s :
  exists b : bool,
    errors_of (snd (guarded_loop host ctx s)) = errors_of s + Nat.b2n b
    /\ count_calls is_record_error (snd (guarded_loop host ctx s))
       = count_calls is_record_error s + Nat.b2n b.
Proof.
  unfold guarded_loop, try_except.
  pose proof (loop_body_errors host ctx s) as He.
  pose proof (emits_count _ is_record_error _ _ (fun ev H => H)
                (loop_body_no_record_error host ctx s)) as Hc.
  destruct (bind (create_providers host ctx)
              (fun _ => async_for host (audio_stream ctx) (stream_end ctx)) s)
    as [[u|e] s1]; cbn [snd] in *; unfold same in He.
  - exists false. cbn. lia.
  - destruct (is_Exception e); cbn [snd].
    + exists true.
      change (errors_of (snd (record_error s1))) with (errors_of s1 + 1).
      change (count_calls is_record_error (snd (record_error s1)))
        with (length (List.filter is_record_error (calls s1 ++ [call_record_error]))).
      rewrite List.filter_app, length_app. cbn.
      fold (count_calls is_record_error s1). lia.
    + exists false. cbn. lia.
Qed.

(** X14. Over a session the error counter grows by the number of
    [record_error] calls, and that number is at most one. *)
Theorem errors_count_record_error_calls (host : Host) (ctx : JobContext) (s : St) :
  let s' := snd (entrypoint host ctx s) in
  let recorded_errors := length (List.filter is_record_error (calls_since s s')) in
  errors_of s' = errors_of s + recorded_errors /\ recorded_errors <= 1.
Proof.
  intros s' recorded_errors.
  destruct (entrypoint_calls host ctx s) as (during & Hcalls & _).
  pose proof (count_calls_since is_record_error s s' _ Hcalls) as Hsince.
  fold recorded_errors in Hsince.
  assert (Hs' : s' = snd (teardown host
                            (snd (guarded_loop host ctx (snd (opening host s))))))
    by apply entrypoint_state.
  destruct (guarded_loop_error_calls host ctx (snd (opening host s)))
    as (b & He & Hc).
  assert (E : errors_of s' = errors_of s + Nat.b2n b).
  { rewrite Hs', (teardown_errors host), He, (opening_errors host s). reflexivity. }
  assert (C : count_calls is_record_error s'
              = count_calls is_record_error s + Nat.b2n b).
  { rewrite Hs', teardown_count, Hc, opening_count by reflexivity. reflexivity. }
  destruct b; cbn in *; lia.
Qed.

(** ** What a session exports *)

Lemma summary_row_counts (m : Metrics) (row : Row) :
  summary_data m = Returns row ->
  Session_ID row = session_id m
  /\ Start_Time row = start_time m
  /\ End_Time row = end_time m
  /\ Total_Duration_s row = total_duration m
  /\ User_Messages row = user_messages m
  /\ Agent_Responses row = agent_responses m
  /\ Interruptions row = interruptions_count m
  /\ Errors row = errors m.
Proof.
  unfold summary_data.
  destruct (average_returns (stt_delays m)) as (a1 & -> & _).
  destruct (average_returns (ttft_delays m)) as (a2 & -> & _).
  destruct (average_returns (ttfd_delays m)) as (a3 & -> & _).
  destruct (average_returns (total_latencies m)) as (a4 & -> & _).
  destruct (guarded_max (total_latencies m)) as (hi & -> & _).
  destruct (guarded_min (total_latencies m)) as (lo & -> & _).
  cbn [outcome_bind]. intros H. injection H as <-. repeat split.
Qed.

Lemma save_to_excel_tracker host f s :
  tracker (snd (save_to_excel host f s)) = tracker s.
Proof.
  assert (H : steps (same tracker) (save_to_excel host f)) by steps_same.
  exact (H s).
Qed.

Lemma opening_total host :
  steps (same (fun s => total_latencies (metrics (tracker s)))) (opening host).
Proof. steps_same. Qed.

Lemma guarded_loop_total host ctx :
  steps (same (fun s => total_latencies (metrics (tracker s))))
        (guarded_loop host ctx).
Proof.
  unfold guarded_loop. unfold_methods. steps_struct; try same_leaf.
  apply async_for_same. intros c. steps_same.
Qed.

Lemma teardown_total host :
  steps (same (fun s => total_latencies (metrics (tracker s)))) (teardown host).
Proof. steps_same. Qed.

Lemma entrypoint_total host ctx s :
  total_latencies (metrics (tracker (snd (entrypoint host ctx s))))
  = total_latencies (metrics (tracker s)).
Proof.
  rewrite entrypoint_state.
  rewrite (teardown_total host), (guarded_loop_total host ctx).
  apply (opening_total host).
Qed.

(** The row a session adds to the metrics file of a host whose spreadsheet
    library works. *)
Lemma entrypoint_row host ctx s :
  healthy host ->
  exists row,
    exported (snd (entrypoint host ctx s)) = (exported s ++ [row])%list
    /\ summary_data (metrics (tracker (snd (entrypoint host ctx s)))) = Returns row.
Proof.
  intros Hh. rewrite entrypoint_state.
  set (s2 := snd (guarded_loop host ctx (snd (opening host s)))).
  assert (Hf2 : files s2 = files s).
  { unfold s2. rewrite (guarded_loop_files host ctx). apply opening_files. }
  unfold teardown, bind.
  pose proof (end_session_returns host s2) as Hr.
  pose proof (end_session_files host s2) as Hf3.
  destruct (end_session host s2) as [r s3]. cbn [fst snd] in *. subst r.
  unfold same in Hf3.
  destruct (save_to_excel_healthy host default_filename s3 Hh)
    as (row & Hrow & _ & Hfiles & Htr).
  exists row. unfold exported. rewrite Hfiles, Hf3, Hf2, Htr, lookup_insert_eq.
  split; [reflexivity|exact Hrow].
Qed.

(** X15. [entrypoint] never records a total latency: the list is left as it
    was, so on a tracker without such samples the exported row has average,
    maximum and minimum latency 0 and the target flag true, whatever the
    stage delays were. *)
Theorem total_latency_never_recorded (host : Host) (ctx : JobContext) (s : St) :
  total_latencies (metrics (tracker (snd (entrypoint host ctx s))))
  = total_latencies (metrics (tracker s))
  /\ (healthy host ->
      total_latencies (metrics (tracker s)) = [] ->
      exists row,
        exported (snd (entrypoint host ctx s)) = (exported s ++ [row])%list
        /\ Average_Total_Latency_s row = 0%Q
        /\ Max_Latency_s row = 0%Q
        /\ Min_Latency_s row = 0%Q
        /\ Latency_Target_Met_lt_2s row = true).
Proof.
  split; [apply entrypoint_total|]. intros Hh Hempty.
  destruct (entrypoint_row host ctx s Hh) as (row & Hexp & Hrow).
  exists row. split; [exact Hexp|].
  destruct (summary_data_fields (metrics (tracker (snd (entrypoint host ctx s)))))
    as (row' & Hrow' & _ & _ & _ & Havg & Hhi & Hlo & Hflag).
  rewrite Hrow in Hrow'. injection Hrow' as <-.
  rewrite entrypoint_total, Hempty in Havg, Hhi, Hlo.
  cbn in Havg, Hhi, Hlo. injection Havg as Havg.
  rewrite Hflag, <- Havg, Hhi, Hlo. repeat split.
Qed.

Lemma total_latency_never_recorded_witness :
  exists row,
    exported (snd (entrypoint sample_host (stream_of [segment "A" 0]) fresh))
    = [row]
    /\ Latency_Target_Met_lt_2s row = true.
Proof.
  destruct (proj2 (total_latency_never_recorded sample_host
                     (stream_of [segment "A" 0]) fresh))
    as (row & Hexp & _ & _ & _ & Hflag).
  - repeat split.
  - reflexivity.
  - exists row. split; [exact Hexp|exact Hflag].
Defined.

(** X16. [start_session] does not reset the tracker: when two sessions run
    one after the other on the same agent, the row exported by the second
    counts the messages and responses of both. *)
Theorem sessions_accumulate
    (host : Host) (ctx1 ctx2 : JobContext) (s : St) :
  healthy host ->
  providers_fault ctx1 = None ->
  Forall (fun c => cycle_ok c = true) (audio_stream ctx1) ->
  stream_end ctx1 = end_of_stream ->
  providers_fault ctx2 = None ->
  Forall (fun c => cycle_ok c = true) (audio_stream ctx2) ->
  stream_end ctx2 = end_of_stream ->
  let s1 := snd (entrypoint host ctx1 s) in
  let s2 := snd (entrypoint host ctx2 s1) in
  exists row1 row2,
    exported s2 = (exported s ++ [row1; row2])%list
    /\ User_Messages row1
       = user_messages (metrics (tracker s)) + length (audio_stream ctx1)
    /\ User_Messages row2
       = user_messages (metrics (tracker s)) + length (audio_stream ctx1)
         + length (audio_stream ctx2)
    /\ Agent_Responses row2
       = agent_responses (metrics (tracker s)) + length (audio_stream ctx1)
         + length (audio_stream ctx2).
Proof.
  intros Hh P1 O1 E1 P2 O2 E2 s1 s2.
  destruct (entrypoint_row host ctx1 s Hh) as (row1 & X1 & R1).
  destruct (entrypoint_row host ctx2 s1 Hh) as (row2 & X2 & R2).
  fold s1 in X1, R1. fold s2 in X2, R2.
  destruct (successful_run host ctx1 s P1 O1 E1) as (T1 & _).
  destruct (successful_run host ctx2 s1 P2 O2 E2) as (T2 & _).
  fold s1 in T1. fold s2 in T2.
  destruct (summary_row_counts _ _ R1) as (_ & _ & _ & _ & U1 & _).
  destruct (summary_row_counts _ _ R2) as (_ & _ & _ & _ & U2 & A2 & _).
  exists row1, row2. rewrite X2, X1, <- app_assoc. split; [reflexivity|].
  rewrite U1, U2, A2.
  apply (f_equal n_user_messages) in T1 as TU1.
  apply (f_equal n_user_messages) in T2 as TU2.
  apply (f_equal n_agent_responses) in T1 as TA1.
  apply (f_equal n_agent_responses) in T2 as TA2.
  cbn in TU1, TU2, TA1, TA2. lia.
Qed.

(** ** The session id *)

Lemma guarded_loop_session_id host ctx :
  steps (same (fun s => session_id (metrics (tracker s)))) (guarded_loop host ctx).
Proof.
  unfold guarded_loop. unfold_methods. steps_struct; try same_leaf.
  apply async_for_same. intros c. steps_same.
Qed.

Lemma teardown_session_id host :
  steps (same (fun s => session_id (metrics (tracker s)))) (teardown host).
Proof. steps_same. Qed.

Lemma session_id_at_inj (t1 t2 : Q) :
  session_id_at t1 = session_id_at t2 <-> py_int t1 = py_int t2.
Proof.
  unfold session_id_at. split; [|intros ->; reflexivity].
  cbn. intros H. injection H as H. apply (inj pretty). exact H.
Qed.

(** X17. The session id of a session is "session_" followed by the whole
    seconds of the first clock reading, so two ids are equal exactly when
    the readings fall in the same second. *)
Theorem session_id_is_start_second (host : Host) (ctx : JobContext) (s : St) :
  session_id (metrics (tracker (snd (entrypoint host ctx s))))
  = Some (session_id_at (time_time host (tick s)))
  /\ forall t1 t2 : Q,
       session_id_at t1 = session_id_at t2 <-> py_int t1 = py_int t2.
Proof.
  split; [|apply session_id_at_inj].
  rewrite entrypoint_state.
  rewrite (teardown_session_id host), (guarded_loop_session_id host ctx).
  reflexivity.
Qed.

(** ** Delays under a clock that never runs backwards *)

#[local] Instance keeps_preorder (P : St -> Prop) : PreOrder (keeps P).
Proof.
  split.
  - intros s H. exact H.
  - intros s1 s2 s3 H12 H23 H. apply H23, H12, H.
Qed.

#[local] Instance later_preorder : PreOrder later.
Proof.
  split.
  - intros s. unfold later. lia.
  - intros s1 s2 s3. unfold later. lia.
Qed.

Lemma same_keeps {X} (f : St -> X) (P : X -> Prop) s s' :
  same f s s' -> keeps (fun s => P (f s)) s s'.
Proof. unfold same, keeps. intros ->. auto. Qed.

Lemma monotone_delay (clock : nat -> Q) (i j : nat) :
  monotone clock -> i <= j -> (0 <= clock j - clock i)%Q.
Proof.
  intros Hm Hij. specialize (Hm i j Hij). lra.
Qed.

Lemma process_chunk_nonneg host c :
  monotone (time_time host) ->
  steps (keeps (fun s => all_nonneg (stage_samples s))) (process_chunk host c).
Proof.
  intros Hm s.
  assert (D : forall i j, i <= j -> (0 <= time_time host j - time_time host i)%Q)
    by (intros i j; apply monotone_delay; exact Hm).
  split_cycle_at c s; destruct t as [start m]; run_py;
    unfold keeps, all_nonneg, stage_samples; cbn;
    rewrite ?Forall_app, ?Forall_cons, ?Forall_nil;
    intros H; repeat split; try tauto; apply D; lia.
Qed.

Lemma opening_stage_samples host : steps (same stage_samples) (opening host).
Proof. steps_same. Qed.

Lemma teardown_stage_samples host : steps (same stage_samples) (teardown host).
Proof. steps_same. Qed.

Lemma guarded_loop_nonneg host ctx :
  monotone (time_time host) ->
  steps (keeps (fun s => all_nonneg (stage_samples s))) (guarded_loop host ctx).
Proof.
  intros Hm. unfold guarded_loop. unfold create_providers.
  steps_struct;
    try (apply steps_async_for; [apply _|]; intros c;
         apply process_chunk_nonneg, Hm);
    try (intros s0; apply (same_keeps stage_samples all_nonneg); reflexivity).
Qed.

Lemma opening_start host s :
  session_start (tracker (snd (opening host s)))
  = Some (time_time host (S (tick s)))
  /\ tick (snd (opening host s)) = S (S (S (tick s))).
Proof. split; reflexivity. Qed.

Lemma guarded_loop_start host ctx :
  steps (same (fun s => session_start (tracker s))) (guarded_loop host ctx).
Proof.
  unfold guarded_loop. unfold_methods. steps_struct; try same_leaf.
  apply async_for_same. intros c. steps_same.
Qed.

Ltac later_leaf := intros ?; unfold later; cbn; lia.

Lemma guarded_loop_later host ctx : steps later (guarded_loop host ctx).
Proof.
  unfold guarded_loop. unfold_methods. steps_struct; try later_leaf.
  apply steps_async_for; [apply _|]. intros c.
  unfold process_chunk. unfold_methods. steps_struct; later_leaf.
Qed.

Lemma teardown_duration host s :
  total_duration (metrics (tracker (snd (teardown host s))))
  = if truthy_float (session_start (tracker s))
    then (time_time host (S (tick s)) - default 0 (session_start (tracker s)))%Q
    else total_duration (metrics (tracker s)).
Proof.
  unfold teardown, bind.
  pose proof (end_session_returns host s) as Hr.
  assert (Hd : total_duration (metrics (tracker (snd (end_session host s))))
               = if truthy_float (session_start (tracker s))
                 then (time_time host (S (tick s))
                       - default 0 (session_start (tracker s)))%Q
                 else total_duration (metrics (tracker s))).
  { unfold end_session, bind. cbn.
    destruct (truthy_float (session_start (tracker s))); reflexivity. }
  destruct (end_session host s) as [r s1]. cbn [fst snd] in *. subst r.
  rewrite save_to_excel_tracker. exact Hd.
Qed.

(** X18. With a clock that never runs backwards a session adds only
    non-negative stage delays, and the duration it records is non-negative
    (when the start reading is 0.0 the duration is left as it was). *)
Theorem monotone_clock_nonnegative_delays
    (host : Host) (ctx : JobContext) (s : St) :
  monotone (time_time host) ->
  let s' := snd (entrypoint host ctx s) in
  (all_nonneg (stage_samples s) -> all_nonneg (stage_samples s'))
  /\ (if truthy_float (Some (time_time host (S (tick s))))
      then (0 <= total_duration (metrics (tracker s')))%Q
      else total_duration (metrics (tracker s'))
           = total_duration (metrics (tracker s))).
Proof.
  intros Hm s'. unfold s'. rewrite entrypoint_state. split.
  - intros H. rewrite (teardown_stage_samples host).
    apply (guarded_loop_nonneg host ctx Hm).
    rewrite (opening_stage_samples host s). exact H.
  - rewrite teardown_duration, (guarded_loop_start host ctx).
    destruct (opening_start host s) as [Hs Ht]. rewrite Hs.
    pose proof (guarded_loop_later host ctx (snd (opening host s))) as Hl.
    unfold later in Hl. rewrite Ht in Hl.
    destruct (truthy_float (Some (time_time host (S (tick s))))).
    + cbn [default]. apply monotone_delay; [exact Hm|lia].
    + assert (Hg : steps (same (fun s => total_duration (metrics (tracker s))))
                         (guarded_loop host ctx)).
      { unfold guarded_loop. unfold_methods. steps_struct; try same_leaf.
        apply async_for_same. intros c. steps_same. }
      rewrite Hg.
      (* the opening leaves the duration as it was *)
      reflexivity.
Qed.

(** ** Edge cases of the recorder *)

Lemma end_session_unstarted (host : Host) (s : St) :
  truthy_float (session_start (tracker s)) = false ->
  end_session host s
  = (Returns tt,
     {| tracker := tracker s; tick := tick s; files := files s;
        calls := (calls s ++ [call_end_session])%list |}).
Proof.
  intros H. unfold end_session, bind. cbn. rewrite H. reflexivity.
Qed.

Lemma save_to_excel_tick host f s : tick (snd (save_to_excel host f s)) = tick s.
Proof.
  assert (H : steps (same tick) (save_to_excel host f)) by steps_same.
  exact (H s).
Qed.

(** X19. The teardown of a tracker on which nothing was ever started or
    recorded: [end_session] takes no clock reading and sets no end time, and
    [save_to_excel] still appends a row, with no session id, no timestamps,
    every count and statistic 0 and the latency target reported as met. *)
Theorem unstarted_tracker_exports_empty_row (host : Host) (s : St) :
  healthy host ->
  tracker s = init ->
  let s' := snd (teardown host s) in
  tick s' = tick s
  /\ tracker s' = init
  /\ files s' !! default_filename = Some (exported s ++ [empty_row])%list.
Proof.
  intros Hh Ht s'. unfold s', teardown.
  assert (Hu : truthy_float (session_start (tracker s)) = false)
    by (rewrite Ht; reflexivity).
  pose proof (end_session_unstarted host s Hu) as He.
  rewrite (bind_returns _ _ _ tt) by (rewrite He; reflexivity).
  rewrite He. cbn [snd].
  set (s1 := {| tracker := tracker s; tick := tick s; files := files s;
                calls := (calls s ++ [call_end_session])%list |}).
  destruct (save_to_excel_healthy host default_filename s1 Hh)
    as (row & Hrow & _ & Hfiles & Htr).
  rewrite save_to_excel_tick, Htr, Hfiles, lookup_insert_eq.
  change (tracker s1) with (tracker s) in *. rewrite Ht in Hrow.
  assert (Hinit : summary_data (metrics init) = Returns empty_row)
    by (vm_compute; reflexivity).
  rewrite Hinit in Hrow. injection Hrow as <-.
  repeat split. exact Ht.
Qed.

Lemma unstarted_tracker_exports_empty_row_witness :
  files (snd (teardown sample_host fresh)) !! default_filename
  = Some [empty_row].
Proof.
  apply (unstarted_tracker_exports_empty_row sample_host fresh).
  - repeat split.
  - reflexivity.
Defined.

(** X20. [save_to_excel] leaves the tracker as it is, so calling it twice
    appends the same row twice. *)
Theorem export_twice_duplicates (host : Host) (filename : string) (s : St) :
  healthy host ->
  let s2 := snd (save_to_excel host filename
                   (snd (save_to_excel host filename s))) in
  exists row,
    summary_data (metrics (tracker s)) = Returns row
    /\ files s2 !! filename
       = Some (default [] (files s !! filename) ++ [row; row])%list
    /\ tracker s2 = tracker s.
Proof.
  intros Hh s2.
  destruct (save_to_excel_healthy host filename s Hh)
    as (row & Hrow & _ & Hf1 & Ht1).
  destruct (save_to_excel_healthy host filename
              (snd (save_to_excel host filename s)) Hh)
    as (row' & Hrow' & _ & Hf2 & Ht2).
  rewrite Ht1, Hrow in Hrow'. injection Hrow' as <-.
  exists row. split; [exact Hrow|]. unfold s2. split.
  - rewrite Hf2, lookup_insert_eq, Hf1, lookup_insert_eq. cbn [from_option id].
    rewrite <- app_assoc. reflexivity.
  - rewrite Ht2, Ht1. reflexivity.
Qed.

Lemma export_twice_duplicates_witness :
  exists row,
    files (snd (save_to_excel sample_host "m.xlsx"
                  (snd (save_to_excel sample_host "m.xlsx" fresh))))
      !! "m.xlsx" = Some [row; row].
Proof.
  destruct (export_twice_duplicates sample_host "m.xlsx" fresh)
    as (row & _ & Hf & _).
  - repeat split.
  - exists row. exact Hf.
Defined.

(** X21. When the metrics file exists and reading it fails, [save_to_excel]
    returns normally without writing: the file keeps its rows and the
    session's row is lost. *)
Theorem unreadable_file_loses_record
    (host : Host) (filename : string) (s : St) (rows : list Row) (e : exn) :
  fault_DataFrame host = None ->
  files s !! filename = Some rows ->
  fault_read_excel host = Some e ->
  is_Exception e = true ->
  save_to_excel host filename s
  = (Returns tt,
     {| tracker := tracker s; tick := tick s; files := files s;
        calls := (calls s ++ [call_save_to_excel filename])%list |}).
Proof.
  intros H1 Hf H2 He.
  destruct (summary_data_fields (metrics (tracker s))) as (row & Hrow & _).
  unfold save_to_excel, try_except, bind, pd_DataFrame, pd_read_excel, to_excel,
    os_path_exists, or_fault.
  rewrite H1, H2. cbn. rewrite Hrow. cbn. rewrite Hf. cbn. rewrite He. reflexivity.
Qed.

Lemma unreadable_file_loses_record_witness :
  let s := stored "m.xlsx" [] in
  fst (save_to_excel sample_host_unreadable "m.xlsx" s) = Returns tt
  /\ files (snd (save_to_excel sample_host_unreadable "m.xlsx" s)) = files s.
Proof.
  intros s.
  rewrite (unreadable_file_loses_record sample_host_unreadable "m.xlsx" s []
             (Exception "PermissionError")
             eq_refl (lookup_singleton_eq _ _) eq_refl eq_refl).
  split; reflexivity.
Defined.

(** ** Order of the latency statistics *)





(** * Properties of test_setup.py *)

Section SetupTests.
Import TestSetup.

(** X23. [test_api_connections] on a fresh tester marks every probe it makes
    as passed, makes each probe once, and probes every configured provider
    except OpenAI's TTS: the number of probes is the number of providers in
    the priority lists, less one when the OpenAI key is set. *)
Theorem api_probes_skip_openai_tts (cls : Config.Config) :
  let r := test_api_connections cls init_results in
  Forall (fun probe => snd probe = true) (api_connections r)
  /\ NoDup (map fst (api_connections r))
  /\ length (api_connections r)
     + Nat.b2n (truthy_str (Config.OPENAI_API_KEY cls))
     = configured_providers cls.
Proof.
  destruct cls as [url lk ls dg oa gq el ca tl].
  unfold test_api_connections, _test_tts_apis, _test_llm_apis, _test_stt_apis,
    probe, configured_providers, Config.get_service_priority, Config.append_if.
  cbn [Config.DEEPGRAM_API_KEY Config.OPENAI_API_KEY Config.GROQ_API_KEY
       Config.ELEVENLABS_API_KEY Config.CARTESIA_API_KEY].
  destruct (truthy_str dg), (truthy_str oa), (truthy_str gq), (truthy_str el),
    (truthy_str ca); vm_compute; repeat split;
    repeat constructor; rewrite ?elem_of_cons, ?elem_of_nil; intuition discriminate.
Qed.

Lemma try_except_returns {A} (m : Py A) (h : exn -> Py A) (s : St) (a : A) :
  fst (m s) = Returns a -> try_except m h s = m s.
Proof. unfold try_except. destruct (m s) as [[a'|e] s1]; cbn; congruence. Qed.

Lemma end_session_keeps_counts host :
  steps (same (fun s => (session_id (metrics (tracker s)), tally s)))
        (end_session host).
Proof. steps_same. Qed.

Lemma try_except_ext {A} (m m' : Py A) (h : exn -> Py A) (s s' : St) :
  m s = m' s' -> try_except m h s = try_except m' h s'.
Proof. unfold try_except. intros ->. reflexivity. Qed.

(** The body of [test_metrics_system] from [end_session] on, run in the
    state left by the statements before it. *)
Lemma test_metrics_system_run host r s :
  exists s9,
    test_metrics_system host r s
    = try_except
        (bind (end_session host) (fun _ =>
         bind (save_to_excel host "test_metrics.xlsx") (fun _ =>
         ret (set_metrics_system true r))))
        (fun _ => ret (set_metrics_system false r)) s9
    /\ files s9 = files s
    /\ session_id (metrics (tracker s9)) = Some "test_session_001"
    /\ tally s9
       = {| n_user_messages := 1; n_agent_responses := 1; n_errors := 0;
            n_interruptions := 1; n_stt := 1; n_ttft := 1; n_ttfd := 1;
            n_total := 1 |}.
Proof.
  eexists. split.
  - unfold test_metrics_system. apply try_except_ext.
    do 9 (rewrite bind_returns with (a := tt) by reflexivity).
    reflexivity.
  - destruct s as [t n fs cs]. repeat split; vm_compute; reflexivity.
Qed.

(** X24. [test_metrics_system] reports success whenever the spreadsheet
    library fails with instances of [Exception] only, so it cannot detect a
    failed export; when the library works it appends one row to
    "test_metrics.xlsx" whose counts do not depend on the state before. *)
Theorem metrics_test_always_passes (host : Host) (r : TestResults) (s : St) :
  (ordinary_faults host ->
   fst (test_metrics_system host r s) = Returns (set_metrics_system true r))
  /\ (healthy host ->
      exists row,
        files (snd (test_metrics_system host r s)) !! "test_metrics.xlsx"
        = Some (default [] (files s !! "test_metrics.xlsx") ++ [row])%list
        /\ Session_ID row = Some "test_session_001"
        /\ User_Messages row = 1
        /\ Interruptions row = 1
        /\ Errors row = 0).
Proof.
  destruct (test_metrics_system_run host r s) as (s9 & -> & Hf & Hid & Ht).
  pose proof (end_session_returns host s9) as Hr.
  pose proof (end_session_files host s9) as Hf10.
  pose proof (end_session_keeps_counts host s9) as Hk.
  unfold same in Hf10, Hk.
  set (s10 := snd (end_session host s9)) in *.
  split.
  - intros Ho.
    assert (Hbody : fst (bind (end_session host) (fun _ =>
                          bind (save_to_excel host "test_metrics.xlsx") (fun _ =>
                          ret (set_metrics_system true r))) s9)
                    = Returns (set_metrics_system true r)).
    { rewrite (bind_returns _ _ _ _ Hr).
      rewrite (bind_returns _ _ _ _ (save_to_excel_returns host _ s10 Ho)).
      reflexivity. }
    rewrite (try_except_returns _ _ _ _ Hbody). exact Hbody.
  - intros Hh.
    destruct (save_to_excel_healthy host "test_metrics.xlsx" s10 Hh)
      as (row & Hrow & Hret & Hfiles & _).
    assert (Hbody : fst (bind (end_session host) (fun _ =>
                          bind (save_to_excel host "test_metrics.xlsx") (fun _ =>
                          ret (set_metrics_system true r))) s9)
                    = Returns (set_metrics_system true r)).
    { rewrite (bind_returns _ _ _ _ Hr), (bind_returns _ _ _ _ Hret). reflexivity. }
    rewrite (try_except_returns _ _ _ _ Hbody).
    rewrite (bind_returns _ _ _ _ Hr). fold s10.
    rewrite (bind_returns _ _ _ _ Hret). cbn [ret snd].
    exists row. rewrite Hfiles, lookup_insert_eq, Hf10, Hf.
    split; [reflexivity|].
    destruct (summary_row_counts _ _ Hrow) as (Sid & _ & _ & _ & U & _ & I & E).
    pose proof (f_equal fst Hk) as Hid10. pose proof (f_equal snd Hk) as Ht10.
    cbn [fst snd] in Hid10, Ht10. rewrite Hid in Hid10.
    rewrite Sid, U, I, E.
    apply (f_equal n_user_messages) in Ht10 as H1.
    apply (f_equal n_interruptions) in Ht10 as H2.
    apply (f_equal n_errors) in Ht10 as H3.
    rewrite Ht in H1, H2, H3. cbn in H1, H2, H3. repeat split; assumption.
Qed.

Lemma metrics_test_always_passes_witness :
  fst (test_metrics_system sample_host_unreadable init_results
         (stored "test_metrics.xlsx" []))
  = Returns (set_metrics_system true init_results).
Proof.
  apply (proj1 (metrics_test_always_passes sample_host_unreadable init_results
                  (stored "test_metrics.xlsx" []))).
  intros e [H|[H|[H|[]]]]; try discriminate H. injection H as <-. reflexivity.
Defined.

End SetupTests.

(** * Further scenarios *)

Lemma sample_host_ordinary : ordinary_faults sample_host.
Proof. intros e [H|[H|[H|[]]]]; discriminate H. Qed.

Lemma sample_host_unreadable_ordinary : ordinary_faults sample_host_unreadable.
Proof.
  intros e [H|[H|[H|[]]]]; try discriminate H. injection H as <-. reflexivity.
Qed.

Lemma sample_clock_monotone : monotone (time_time sample_host).
Proof. intros i j H. unfold Qle. cbn. lia. Qed.

Lemma entrypoint_contains_errors_witness :
  fst (entrypoint sample_host_unreadable
         (stream_of [segment_stt_fails "A" 0]) fresh)
  = Returns tt.
Proof.
  apply (entrypoint_contains_errors sample_host_unreadable
           (stream_of [segment_stt_fails "A" 0]) fresh
           sample_host_unreadable_ordinary).
  repeat constructor.
Defined.

Lemma successful_session_witness :
  tally (snd (entrypoint sample_host
                (stream_of [segment "A" 0; segment "B" 10]) fresh))
  = tally_after 2 (tally fresh).
Proof.
  assert (Hok : Forall (fun c => cycle_ok c = true)
                       (audio_stream (stream_of [segment "A" 0; segment "B" 10])))
    by (repeat constructor).
  exact (proj1 (successful_session sample_host
                  (stream_of [segment "A" 0; segment "B" 10]) fresh
                  eq_refl Hok eq_refl)).
Defined.

Lemma cancellation_propagates_witness :
  fst (entrypoint sample_host (cancelled_stream [segment "A" 0]) fresh)
  = Raises (BaseException "CancelledError").
Proof.
  assert (Hok : Forall (fun c => cycle_ok c = true)
                       (audio_stream (cancelled_stream [segment "A" 0])))
    by (repeat constructor).
  exact (proj1 (cancellation_propagates sample_host
                  (cancelled_stream [segment "A" 0]) fresh
                  (BaseException "CancelledError")
                  sample_host_ordinary eq_refl Hok eq_refl eq_refl)).
Defined.

Lemma raising_cycle_ends_session_witness :
  let s' := snd (entrypoint sample_host
                   (stream_of [segment_send_fails "A" 0; segment "B" 10]) fresh) in
  n_agent_responses (tally s') = 1 /\ n_errors (tally s') = 1.
Proof.
  intros s'. unfold s'.
  rewrite (proj1 (raising_cycle_ends_session sample_host
                    (stream_of [segment_send_fails "A" 0; segment "B" 10]) fresh
                    [] (segment_send_fails "A" 0) [segment "B" 10]
                    (Exception "TransportError")
                    eq_refl eq_refl (List.Forall_nil _) eq_refl eq_refl)).
  split; reflexivity.
Defined.

Lemma sessions_accumulate_witness :
  let s1 := snd (entrypoint sample_host (stream_of [segment "A" 0]) fresh) in
  let s2 := snd (entrypoint sample_host
                   (stream_of [segment "B" 10; segment "C" 20]) s1) in
  exists row1 row2,
    exported s2 = [row1; row2] /\ User_Messages row2 = 3.
Proof.
  assert (H1 : Forall (fun c => cycle_ok c = true)
                      (audio_stream (stream_of [segment "A" 0])))
    by (repeat constructor).
  assert (H2 : Forall (fun c => cycle_ok c = true)
                      (audio_stream (stream_of [segment "B" 10; segment "C" 20])))
    by (repeat constructor).
  assert (Hh : healthy sample_host) by (repeat split).
  destruct (sessions_accumulate sample_host (stream_of [segment "A" 0])
              (stream_of [segment "B" 10; segment "C" 20]) fresh
              Hh eq_refl H1 eq_refl eq_refl H2 eq_refl)
    as (row1 & row2 & Hexp & _ & U2 & _).
  exists row1, row2. split; [exact Hexp|exact U2].
Defined.

Lemma monotone_clock_nonnegative_delays_witness :
  all_nonneg (stage_samples
                (snd (entrypoint sample_host (stream_of [segment "A" 0]) fresh))).
Proof.
  apply (proj1 (monotone_clock_nonnegative_delays sample_host
                  (stream_of [segment "A" 0]) fresh sample_clock_monotone)).
  constructor.
Defined.


